(** * Process supervision in gui.py (DouyinLiveRecorder)

    A shallow embedding of [LiveRecorderGUI]: the start/stop handlers, the
    output relay thread and the end-of-process callback, together with the
    text cleaning applied to every line of child output.

    Python [str] values are sequences of Unicode code points; external
    calls (subprocess, clock, message boxes, widgets) are recorded in a
    trace together with the answer the environment gave. *)

From Stdlib Require Import String Ascii DecimalString.
From Stdlib Require Import List ZArith NArith Bool Lia.
From Equations.Prop Require Import Equations Logic.
Import ListNotations.

Set Implicit Arguments.

(* ===================================================================== *)
(** ** Python strings *)
(* ===================================================================== *)

(** A Python [str]: the list of its code points. *)
Definition pystr := list N.

Definition pystr_eq_dec : forall a b : pystr, {a = b} + {a <> b} :=
  list_eq_dec N.eq_dec.

Definition pystr_eqb (a b : pystr) : bool :=
  if pystr_eq_dec a b then true else false.

(** Source literals are written as UTF-8 text; [utf8_go] turns the bytes
    into code points ([pending] continuation bytes are still expected and
    [acc] holds the bits read so far). *)
Fixpoint utf8_go (pending : nat) (acc : N) (bs : list N) : pystr :=
  match bs with
  | [] => []
  | b :: t =>
      match pending with
      | O =>
          if (b <? 128)%N then b :: utf8_go 0 0 t
          else if (b <? 192)%N then 65533%N :: utf8_go 0 0 t
          else if (b <? 224)%N then utf8_go 1 (b - 192) t
          else if (b <? 240)%N then utf8_go 2 (b - 224) t
          else if (b <? 248)%N then utf8_go 3 (b - 240) t
          else 65533%N :: utf8_go 0 0 t
      | S k =>
          let acc' := (acc * 64 + (b - 128))%N in
          match k with
          | O => acc' :: utf8_go 0 0 t
          | S _ => utf8_go k acc' t
          end
      end
  end.

Definition lit (s : string) : pystr :=
  utf8_go 0 0 (map N_of_ascii (list_ascii_of_string s)).

(** [str(n)] for an integer. *)
Definition str_of_Z (z : Z) : pystr :=
  lit (NilZero.string_of_int (Z.to_int z)).

(** ["=" * 50] *)
Definition str_mul (s : pystr) (n : nat) : pystr := concat (repeat s n).

(** [Py_UNICODE_ISSPACE]: the characters [str.rstrip()] removes when it is
    called without an argument. *)
Definition isspace (c : N) : bool :=
  ((9 <=? c) && (c <=? 13) || (28 <=? c) && (c <=? 32)
   || (c =? 133) || (c =? 160) || (c =? 5760)
   || (8192 <=? c) && (c <=? 8202)
   || (c =? 8232) || (c =? 8233) || (c =? 8239) || (c =? 8287)
   || (c =? 12288))%N.

(** [s.rstrip()] *)
Definition rstrip (s : pystr) : pystr :=
  fold_right
    (fun c acc =>
       match acc with
       | [] => if isspace c then [] else [c]
       | _ :: _ => c :: acc
       end) [] s.

(** [s.endswith(whitespace)]: the last character, if any, is a space. *)
Definition ends_with_space (s : pystr) : bool :=
  match s with
  | [] => false
  | _ :: _ => isspace (last s 0%N)
  end.

(* ===================================================================== *)
(** ** ANSI_ESCAPE_PATTERN = re.compile(r'\x1b\[[0-9;]*m') *)
(* ===================================================================== *)

Module AnsiPattern.

Definition ESC : N := 27.
Definition LBRACKET : N := 91.
Definition LETTER_m : N := 109.

(** The character class [[0-9;]]. *)
Definition is_param (c : N) : bool :=
  ((48 <=? c) && (c <=? 57) || (c =? 59))%N.

(** [[0-9;]*], greedy: drop the longest run of parameter characters. *)
Fixpoint skip_params (s : pystr) : pystr :=
  match s with
  | [] => []
  | c :: t => if is_param c then skip_params t else s
  end.

(** Try the pattern at the beginning of [s]; on success the text after
    the match is returned.  Backtracking over the star never helps, as
    no parameter character is the final [m]. *)
Definition match_at (s : pystr) : option pystr :=
  match s with
  | c0 :: c1 :: t =>
      if ((c0 =? ESC) && (c1 =? LBRACKET))%N then
        match skip_params t with
        | c :: r => if (c =? LETTER_m)%N then Some r else None
        | [] => None
        end
      else None
  | _ => None
  end.

Lemma skip_params_length s : length (skip_params s) <= length s.
Proof.
  induction s as [|c t IH]; simpl; [lia|].
  destruct (is_param c); simpl; lia.
Qed.

Lemma match_at_shorter s r : match_at s = Some r -> length r < length s.
Proof.
  unfold match_at.
  destruct s as [|c0 [|c1 t]]; try discriminate.
  destruct ((c0 =? ESC) && (c1 =? LBRACKET))%N; try discriminate.
  destruct (skip_params t) as [|c r'] eqn:E; try discriminate.
  destruct (c =? LETTER_m)%N; try discriminate.
  intros [= <-]. pose proof (skip_params_length t) as H.
  rewrite E in H. simpl in *. lia.
Qed.

(** [ANSI_ESCAPE_PATTERN.sub('', s)]: scan from the left; where the
    pattern matches, drop the match and go on after it, otherwise keep
    the character. *)
Equations? sub (s : pystr) : pystr by wf (length s) lt :=
  sub [] := [];
  sub (c :: t) with inspect (match_at (c :: t)) => {
    | exist _ (Some r) _ := sub r;
    | exist _ None _ := c :: sub t }.
Proof.
  exact (match_at_shorter (c :: t) e).
Qed.

(** A text the pattern matches as a whole: ESC, an opening bracket,
    digits and semicolons, the letter m. *)
Definition is_seq (e : pystr) : Prop :=
  exists ps, forallb is_param ps = true
             /\ e = ESC :: LBRACKET :: ps ++ [LETTER_m].

(** [removed s r]: [r] is [s] without the matches found by a scan from
    the left; a character is kept only where no match begins. *)
Inductive removed : pystr -> pystr -> Prop :=
| removed_nil : removed [] []
| removed_seq e s r : is_seq e -> removed s r -> removed (e ++ s) r
| removed_keep c s r :
    (forall e rest, is_seq e -> c :: s <> e ++ rest) ->
    removed s r -> removed (c :: s) (c :: r).

End AnsiPattern.

(** Line 418: [clean_line = self.ANSI_ESCAPE_PATTERN.sub('', line.rstrip())] *)
Definition clean_line (line : pystr) : pystr :=
  AnsiPattern.sub (rstrip line).

(* ===================================================================== *)
(** ** The world of the application: exceptions, events, environment *)
(* ===================================================================== *)

(** Exceptions, as far as the handlers tell them apart:
    [subprocess.TimeoutExpired] and every other [Exception]; [msg] is
    [str(e)]. *)
Inductive Exn :=
| TimeoutExpired (msg : pystr)
| PyException (msg : pystr).

Definition str_of_exn (e : Exn) : pystr :=
  match e with
  | TimeoutExpired msg => msg
  | PyException msg => msg
  end.

(** A [subprocess.Popen] object: its identity and its [pid] attribute. *)
Record Popen := { handle : nat; pid : Z }.

(** The callables handed to [self.root.after(0, ...)]. *)
Inductive Callback :=
| CbProcessEnded                      (* self._process_ended *)
| CbLog (l : pystr)                   (* lambda l=clean_line: self._log(l) *)
| CbLogError (error_msg : pystr).     (* lambda: self._log(f"读取输出错误: ...", "error") *)

(** Calls that leave the Python object, with the answer that came back. *)
Inductive Event :=
| EvClock (timestamp : pystr)          (* datetime.now().strftime(...) *)
| EvPopen (argv : list pystr) (cwd encoding : pystr) (res : Exn + Popen)
| EvThreadStart (thread : nat)         (* self.output_thread.start() *)
| EvTerminate (p : Popen) (res : option Exn)
| EvWait (p : Popen) (timeout : Z) (res : Exn + Z)
| EvKill (p : Popen) (res : option Exn)
| EvReadline (p : Popen) (res : Exn + pystr)
| EvPoll (p : Popen) (res : option Z)
| EvShowWarning (title message : pystr)
| EvShowError (title message : pystr)
| EvStartBtn (statespec : list pystr)  (* self.start_btn.state([...]) *)
| EvStopBtn (statespec : list pystr)   (* self.stop_btn.state([...]) *)
| EvStatusLabel (text fg : pystr)      (* self.status_label.config(text=, fg=) *)
| EvStatusVar (text : pystr)           (* self.status_var.set(...) *)
| EvLogInsert (display_text tag : pystr). (* self.log_text.insert(END, ..) *)

(** What the program cannot decide itself.  The answers of the operating
    system are indexed by logical time, the number of questions asked so
    far, so that the same call may be answered differently later on. *)
Record Env := {
  sys_platform : pystr;
  sys_executable : pystr;
  script_dir : pystr;
  preferred_encoding : pystr;
  os_path_join : pystr -> list pystr -> pystr;
  os_path_exists : pystr -> bool;
  clock : nat -> pystr;
  popen_result : nat -> list pystr -> Exn + Z;
  terminate_result : nat -> Popen -> option Exn;
  wait_result : nat -> Popen -> Z -> Exn + Z;
  kill_result : nat -> Popen -> option Exn;
  readline_result : nat -> Popen -> Exn + pystr;
  poll_result : nat -> Popen -> option Z
}.

(** The attributes of [LiveRecorderGUI] the supervisor code reads or
    writes, the pending [after] callbacks of the Tk main loop, and the
    history of external calls. *)
Record App := {
  process : option Popen;
  process_pid : option Z;
  output_thread : option nat;
  running : bool;
  system_tray : option bool;     (* SystemTray object and its [running] *)
  after_queue : list Callback;
  trace : list Event;
  ticks : nat                    (* logical time *)
}.

(** [LiveRecorderGUI.__init__] (lines 174-180), before any widget call. *)
Definition init : App :=
  {| process := None; process_pid := None; output_thread := None;
     running := false; system_tray := None;
     after_queue := []; trace := []; ticks := 0 |}.

Definition set_process (v : option Popen) (w : App) : App :=
  {| process := v; process_pid := process_pid w;
     output_thread := output_thread w; running := running w;
     system_tray := system_tray w; after_queue := after_queue w;
     trace := trace w; ticks := ticks w |}.

Definition set_process_pid (v : option Z) (w : App) : App :=
  {| process := process w; process_pid := v;
     output_thread := output_thread w; running := running w;
     system_tray := system_tray w; after_queue := after_queue w;
     trace := trace w; ticks := ticks w |}.

Definition set_output_thread (v : option nat) (w : App) : App :=
  {| process := process w; process_pid := process_pid w;
     output_thread := v; running := running w;
     system_tray := system_tray w; after_queue := after_queue w;
     trace := trace w; ticks := ticks w |}.

Definition set_running (v : bool) (w : App) : App :=
  {| process := process w; process_pid := process_pid w;
     output_thread := output_thread w; running := v;
     system_tray := system_tray w; after_queue := after_queue w;
     trace := trace w; ticks := ticks w |}.

Definition set_system_tray (v : option bool) (w : App) : App :=
  {| process := process w; process_pid := process_pid w;
     output_thread := output_thread w; running := running w;
     system_tray := v; after_queue := after_queue w;
     trace := trace w; ticks := ticks w |}.

Definition set_after_queue (v : list Callback) (w : App) : App :=
  {| process := process w; process_pid := process_pid w;
     output_thread := output_thread w; running := running w;
     system_tray := system_tray w; after_queue := v;
     trace := trace w; ticks := ticks w |}.

Definition set_trace (v : list Event) (w : App) : App :=
  {| process := process w; process_pid := process_pid w;
     output_thread := output_thread w; running := running w;
     system_tray := system_tray w; after_queue := after_queue w;
     trace := v; ticks := ticks w |}.

(** An external call was answered: note the event, advance the time. *)
Definition answered (e : Event) (w : App) : App :=
  {| process := process w; process_pid := process_pid w;
     output_thread := output_thread w; running := running w;
     system_tray := system_tray w; after_queue := after_queue w;
     trace := trace w ++ [e]; ticks := S (ticks w) |}.

(* ===================================================================== *)
(** ** A state-and-exception monad for method bodies *)
(* ===================================================================== *)

Inductive Outcome (A : Type) :=
| Ok (a : A)
| Raised (e : Exn).
Arguments Ok {A} a.
Arguments Raised {A} e.

Definition M (A : Type) : Type := App -> Outcome A * App.

Definition ret {A} (a : A) : M A := fun w => (Ok a, w).

Definition bind {A B} (m : M A) (k : A -> M B) : M B :=
  fun w =>
    match m w with
    | (Ok a, w') => k a w'
    | (Raised e, w') => (Raised e, w')
    end.

Definition raise {A} (e : Exn) : M A := fun w => (Raised e, w).

(** [try: body  except Exception as e: handler] *)
Definition try_except {A} (body : M A) (handler : Exn -> M A) : M A :=
  fun w =>
    match body w with
    | (Ok a, w') => (Ok a, w')
    | (Raised e, w') => handler e w'
    end.

(** [try: body  except subprocess.TimeoutExpired: handler] *)
Definition try_except_timeout {A} (body : M A) (handler : M A) : M A :=
  fun w =>
    match body w with
    | (Ok a, w') => (Ok a, w')
    | (Raised (TimeoutExpired _), w') => handler w'
    | (Raised (PyException msg), w') => (Raised (PyException msg), w')
    end.

Declare Scope py_scope.
Delimit Scope py_scope with py.
Notation "x <- m ;; k" := (bind m (fun x => k))
  (at level 61, m at next level, right associativity) : py_scope.
Notation "m ;; k" := (bind m (fun _ => k))
  (at level 61, right associativity) : py_scope.
Open Scope py_scope.

Definition get {A} (f : App -> A) : M A := fun w => (Ok (f w), w).
Definition modify (f : App -> App) : M unit := fun w => (Ok tt, f w).

(** A call to a widget or a message box: nothing comes back. *)
Definition emit (e : Event) : M unit :=
  modify (fun w => set_trace (trace w ++ [e]) w).

(** Run a method that handles all of its exceptions. *)
Definition exec {A} (m : M A) (w : App) : App := snd (m w).

(** The events a call appended: those of [w'] after the ones of [w]. *)
Definition events_since (w w' : App) : list Event :=
  skipn (length (trace w)) (trace w').

(* ===================================================================== *)
(** ** LiveRecorderGUI *)
(* ===================================================================== *)

Section Supervisor.

Variable env : Env.

(** *** External calls *)

Definition subprocess_Popen (argv : list pystr) (cwd : pystr) : M Popen :=
  fun w =>
    let enc := preferred_encoding env in
    match popen_result env (ticks w) argv with
    | inl e => (Raised e, answered (EvPopen argv cwd enc (inl e)) w)
    | inr n =>
        let p := {| handle := ticks w; pid := n |} in
        (Ok p, answered (EvPopen argv cwd enc (inr p)) w)
    end.

Definition terminate (p : Popen) : M unit :=
  fun w =>
    let res := terminate_result env (ticks w) p in
    match res with
    | None => (Ok tt, answered (EvTerminate p res) w)
    | Some e => (Raised e, answered (EvTerminate p res) w)
    end.

Definition wait (p : Popen) (timeout : Z) : M Z :=
  fun w =>
    let res := wait_result env (ticks w) p timeout in
    match res with
    | inr rc => (Ok rc, answered (EvWait p timeout res) w)
    | inl e => (Raised e, answered (EvWait p timeout res) w)
    end.

Definition kill (p : Popen) : M unit :=
  fun w =>
    let res := kill_result env (ticks w) p in
    match res with
    | None => (Ok tt, answered (EvKill p res) w)
    | Some e => (Raised e, answered (EvKill p res) w)
    end.

Definition stdout_readline (p : Popen) : M pystr :=
  fun w =>
    let res := readline_result env (ticks w) p in
    match res with
    | inr line => (Ok line, answered (EvReadline p res) w)
    | inl e => (Raised e, answered (EvReadline p res) w)
    end.

Definition poll (p : Popen) : M (option Z) :=
  fun w =>
    let res := poll_result env (ticks w) p in
    (Ok res, answered (EvPoll p res) w).

(** [self.root.after(0, cb)] *)
Definition root_after (cb : Callback) : M unit :=
  modify (fun w => set_after_queue (after_queue w ++ [cb]) w).

(** [threading.Thread(target=self._read_output, daemon=True)] followed by
    [.start()] *)
Definition start_output_thread : M unit :=
  fun w =>
    let t := ticks w in
    (Ok tt, answered (EvThreadStart t) (set_output_thread (Some t) w)).

(** *** Helpers of the class *)

(** Lines 456-458. *)
Definition _get_timestamp : M pystr :=
  fun w =>
    let ts := clock env (ticks w) in
    (Ok ts, answered (EvClock ts) w).

Definition info : pystr := lit "info".
Definition error : pystr := lit "error".

(** Lines 441-454. *)
Definition _log (message level : pystr) : M unit :=
  timestamp <- _get_timestamp ;;
  if pystr_eqb level (lit "error") then
    emit (EvLogInsert
            (lit "[" ++ timestamp ++ lit "] [ERROR] " ++ message ++ [10%N])
            (lit "error"))
  else
    emit (EvLogInsert
            (lit "[" ++ timestamp ++ lit "] " ++ message ++ [10%N])
            (lit "normal")).

(** Lines 460-467. *)
Definition _update_status_bar : M unit :=
  tray <- get system_tray ;;
  let tray_status :=
    match tray with
    | Some true => lit "启用"
    | _ => lit "未启动"
    end in
  pid_ <- get process_pid ;;
  match pid_ with
  | Some n =>
      emit (EvStatusVar
              (lit "状态：运行中 (PID: " ++ str_of_Z n
               ++ lit ") | 循环检测: 120秒 | 格式: ts → mp4 | 托盘: "
               ++ tray_status))
  | None =>
      emit (EvStatusVar
              (lit "状态：未运行 | 循环检测: 120秒 | 格式: ts → mp4 | 托盘: "
               ++ tray_status))
  end.

(** The two appearances of the status label. *)
Definition label_running : Event :=
  EvStatusLabel (lit "🟢 运行中") (lit "#2e7d32").
Definition label_not_running : Event :=
  EvStatusLabel (lit "🔴 未运行") (lit "#d32f2f").

Definition separator : pystr := str_mul (lit "=") 50.

(** *** start_recording (lines 324-370)

    Of the calls inside the [try], [subprocess.Popen] is the one taken
    to raise; widget calls and the start of the thread return. *)

(** Lines 331-336: the interpreter that runs main.py. *)
Definition python_exe : pystr :=
  if pystr_eqb (sys_platform env) (lit "win32") then
    let candidate :=
      os_path_join env (script_dir env)
                   [lit "venv"; lit "Scripts"; lit "python.exe"] in
    if negb (os_path_exists env candidate) then sys_executable env
    else candidate
  else sys_executable env.

Definition main_py : pystr :=
  os_path_join env (script_dir env) [lit "main.py"].

Definition start_recording : M unit :=
  proc <- get process ;;
  match proc with
  | Some _ =>
      emit (EvShowWarning (lit "警告") (lit "录制已在运行中！"))
  | None =>
      try_except
        (p <- subprocess_Popen [python_exe; main_py] (script_dir env) ;;
         modify (set_process (Some p)) ;;
         modify (set_process_pid (Some (pid p))) ;;
         modify (set_running true) ;;
         emit (EvStartBtn [lit "disabled"]) ;;
         emit (EvStopBtn [lit "!disabled"]) ;;
         emit label_running ;;
         _update_status_bar ;;
         start_output_thread ;;
         _log separator info ;;
         ts <- _get_timestamp ;;
         _log (lit "[" ++ ts ++ lit "] 录制进程已启动") info ;;
         _log (lit "Python: " ++ python_exe) info ;;
         _log (lit "工作目录: " ++ script_dir env) info ;;
         _log separator info)
        (fun e =>
           _log (lit "启动录制失败: " ++ str_of_exn e) error ;;
           emit (EvShowError (lit "错误")
                   (lit "启动录制失败: " ++ str_of_exn e)))
  end.

(** *** stop_recording (lines 372-405) *)

Definition stop_recording : M unit :=
  proc <- get process ;;
  match proc with
  | None =>
      emit (EvShowWarning (lit "警告") (lit "没有正在运行的录制进程！"))
  | Some p =>
      try_except
        (_log separator info ;;
         ts <- _get_timestamp ;;
         _log (lit "[" ++ ts ++ lit "] 正在停止录制...") info ;;
         terminate p ;;
         try_except_timeout
           (wait p 3 ;; ret tt)
           (kill p ;;
            _log (lit "进程已强制终止") info) ;;
         modify (set_running false) ;;
         modify (set_process None) ;;
         modify (set_process_pid None) ;;
         emit (EvStartBtn [lit "!disabled"]) ;;
         emit (EvStopBtn [lit "disabled"]) ;;
         emit label_not_running ;;
         _update_status_bar ;;
         ts' <- _get_timestamp ;;
         _log (lit "[" ++ ts' ++ lit "] 录制进程已停止") info ;;
         _log separator info)
        (fun e =>
           _log (lit "停止录制失败: " ++ str_of_exn e) error ;;
           emit (EvShowError (lit "错误")
                   (lit "停止录制失败: " ++ str_of_exn e)))
  end.

(** *** _process_ended (lines 426-439) *)

Definition _process_ended : M unit :=
  modify (set_running false) ;;
  modify (set_process None) ;;
  modify (set_process_pid None) ;;
  emit (EvStartBtn [lit "!disabled"]) ;;
  emit (EvStopBtn [lit "disabled"]) ;;
  emit label_not_running ;;
  _update_status_bar ;;
  _log separator info ;;
  ts <- _get_timestamp ;;
  _log (lit "[" ++ ts ++ lit "] 录制进程已结束") info ;;
  _log separator info.

(** *** _read_output (lines 407-424) *)

Inductive LoopCtl := Continue | Break.

(** One pass through the body of the [while] loop, for the process [p]
    that [self.process] held when the loop condition was tested; the
    main thread does not run in between. *)
Definition _read_output_body (p : Popen) : M LoopCtl :=
  try_except
    (line <- stdout_readline p ;;
     match line with
     | [] =>
         rc <- poll p ;;
         match rc with
         | Some _ => root_after CbProcessEnded ;; ret Break
         | None => ret Continue
         end
     | _ :: _ =>
         root_after (CbLog (clean_line line)) ;;
         ret Continue
     end)
    (fun e =>
       let error_msg := str_of_exn e in
       root_after (CbLogError error_msg) ;;
       ret Break).

(** The loop; [None] when [fuel] passes were not enough to leave it. *)
Fixpoint _read_output (fuel : nat) (w : App) : option App :=
  match fuel with
  | O => None
  | S fuel' =>
      match running w, process w with
      | true, Some p =>
          match _read_output_body p w with
          | (Ok Continue, w') => _read_output fuel' w'
          | (_, w') => Some w'
          end
      | _, _ => Some w
      end
  end.

(** *** The Tk main loop running a callback queued with [after] *)

Definition run_callback (cb : Callback) : M unit :=
  match cb with
  | CbProcessEnded => _process_ended
  | CbLog l => _log l info
  | CbLogError error_msg => _log (lit "读取输出错误: " ++ error_msg) error
  end.

Definition mainloop_step (w : App) : App :=
  match after_queue w with
  | [] => w
  | cb :: q => exec (run_callback cb) (set_after_queue q w)
  end.

End Supervisor.

Arguments lit : simpl never.
Arguments str_of_Z : simpl never.
Arguments separator : simpl never.

(* ===================================================================== *)
(** ** Observations on a trace *)
(* ===================================================================== *)

(** The status values of the specification.  The program shows a status
    through [self.status_label]; it has a text for [Running] (line 356)
    and one for [Idle] (lines 238, 397, 434) and none for [Stopping]. *)
Inductive Status := Idle | Running | Stopping.

Definition status_of_event (e : Event) : option Status :=
  match e with
  | EvStatusLabel text _ =>
      if pystr_eqb text (lit "🟢 运行中") then Some Running
      else if pystr_eqb text (lit "🔴 未运行") then Some Idle
      else None
  | _ => None
  end.

Definition is_status_label (e : Event) : bool :=
  match e with EvStatusLabel _ _ => true | _ => false end.

(** What a subscriber of the status sees: the label the window is built
    with (line 238), then every later change. *)
Definition status_history (tr : list Event) : list (option Status) :=
  Some Idle :: map status_of_event (filter is_status_label tr).

Definition is_terminate (e : Event) : bool :=
  match e with EvTerminate _ _ => true | _ => false end.

Definition is_wait (e : Event) : bool :=
  match e with EvWait _ _ _ => true | _ => false end.

Definition is_kill (e : Event) : bool :=
  match e with EvKill _ _ => true | _ => false end.

Definition is_popen (e : Event) : bool :=
  match e with EvPopen _ _ _ _ => true | _ => false end.

Definition is_show_error (e : Event) : bool :=
  match e with EvShowError _ _ => true | _ => false end.

Definition is_show_warning (e : Event) : bool :=
  match e with EvShowWarning _ _ => true | _ => false end.

Definition is_log_insert (e : Event) : bool :=
  match e with EvLogInsert _ _ => true | _ => false end.


(** [s.startswith(prefix)] *)
Fixpoint startswith (s prefix : pystr) {struct prefix} : bool :=
  match prefix with
  | [] => true
  | a :: prefix' =>
      match s with
      | [] => false
      | b :: s' => (a =? b)%N && startswith s' prefix'
      end
  end.

(** [s.endswith(suffix)] *)
Definition endswith (s suffix : pystr) : bool :=
  startswith (rev s) (rev suffix).

(** A line of the log view that was written by [_log(message)] at the
    default level: the text put into the widget ends with the message and
    a newline. *)
Definition logs_message (message : pystr) (e : Event) : bool :=
  match e with
  | EvLogInsert display_text tag =>
      pystr_eqb tag (lit "normal")
      && endswith display_text (message ++ [10%N])
  | _ => false
  end.

Definition count_events (f : Event -> bool) (evs : list Event) : nat :=
  length (filter f evs).

(** The messages of lines 388, 400 and 438. *)
Definition msg_forced_kill : pystr := lit "进程已强制终止".
Definition msg_stopped : pystr := lit "录制进程已停止".
Definition msg_ended : pystr := lit "录制进程已结束".

(** An [Error] line of the log view: inserted with the tag "error". *)
Definition is_error_line (e : Event) : bool :=
  match e with
  | EvLogInsert _ tag => pystr_eqb tag (lit "error")
  | _ => false
  end.

(** The three attributes that describe the supervised process agree:
    all set or all cleared. *)
Definition consistent (w : App) : Prop :=
  (exists p n, process w = Some p /\ process_pid w = Some n
               /\ running w = true)
  \/ (process w = None /\ process_pid w = None /\ running w = false).

(* ===================================================================== *)
(** ** Runs of the application *)
(* ===================================================================== *)

(** What can happen next: the user presses a button, the Tk main loop
    runs a queued callback, the relay thread goes once through its loop
    (the loop condition is read first), the tray thread comes up. *)
Inductive Action :=
| ActStart
| ActStop
| ActMainloop
| ActRelay
| ActTrayUp.

Definition relay_pass (env : Env) (w : App) : App :=
  match running w, process w with
  | true, Some p => snd (_read_output_body env p w)
  | _, _ => w
  end.

Definition step (env : Env) (a : Action) (w : App) : App :=
  match a with
  | ActStart => exec (start_recording env) w
  | ActStop => exec (stop_recording env) w
  | ActMainloop => mainloop_step env w
  | ActRelay => relay_pass env w
  | ActTrayUp => set_system_tray (Some true) w
  end.

Definition run (env : Env) (acts : list Action) (w : App) : App :=
  fold_left (fun w a => step env a w) acts w.

Inductive reachable (env : Env) : App -> Prop :=
| reach_init : reachable env init
| reach_step a w : reachable env w -> reachable env (step env a w).





(* ===================================================================== *)
(** ** Sample environments *)
(* ===================================================================== *)

Module Sample.

Definition join (a : pystr) (parts : list pystr) : pystr :=
  fold_left (fun acc x => acc ++ lit "/" ++ x) parts a.

(** A POSIX machine on which every path exists and [Popen] and
    [terminate()] succeed; what [wait(timeout=3)], [kill()] and
    [readline()] answer is given. *)
Definition posix (wait_res : Exn + Z) (kill_res : option Exn)
    (read_res : nat -> Exn + pystr) : Env :=
  {| sys_platform := lit "linux";
     sys_executable := lit "/usr/bin/python3";
     script_dir := lit "/opt/recorder";
     preferred_encoding := lit "UTF-8";
     os_path_join := join;
     os_path_exists := fun _ => true;
     clock := fun _ => lit "2024-05-01 12:00:00";
     popen_result := fun _ _ => inr 4242%Z;
     terminate_result := fun _ _ => None;
     wait_result := fun _ _ _ => wait_res;
     kill_result := fun _ _ => kill_res;
     readline_result := fun t _ => read_res t;
     poll_result := fun _ _ => Some 0%Z |}.

Definition eof : nat -> Exn + pystr := fun _ => inr [].

Definition timeout3 : Exn :=
  TimeoutExpired (lit "Command timed out after 3 seconds").

Definition graceful : Env := posix (inr 0%Z) None eof.
Definition stubborn : Env := posix (inl timeout3) None eof.
Definition unkillable : Env :=
  posix (inl timeout3) (Some (PyException (lit "[Errno 1] Operation not permitted"))) eof.
Definition broken_pipe : Env :=
  posix (inr 0%Z) None (fun _ => inl (PyException (lit "I/O operation on closed file"))).

(** A Windows machine, with or without [venv\Scripts\python.exe]. *)
Definition windows (has_venv : bool) : Env :=
  {| sys_platform := lit "win32";
     sys_executable := lit "C:\Python312\python.exe";
     script_dir := lit "C:\recorder";
     preferred_encoding := lit "cp936";
     os_path_join :=
       fun a parts => fold_left (fun acc x => acc ++ lit "\" ++ x) parts a;
     os_path_exists := fun _ => has_venv;
     clock := fun _ => lit "2024-05-01 12:00:00";
     popen_result := fun _ _ => inr 4242%Z;
     terminate_result := fun _ _ => None;
     wait_result := fun _ _ _ => inr 1%Z;
     kill_result := fun _ _ => None;
     readline_result := fun _ _ => inr [];
     poll_result := fun _ _ => Some 1%Z |}.

(** The application right after a successful [start_recording]. *)
Definition started (env : Env) : App := exec (start_recording env) init.

End Sample.

(* ===================================================================== *)
(** ** Named events, states and lines *)
(* ===================================================================== *)

(** The two refusals (lines 327 and 375). *)
Definition warn_already_running : Event :=
  EvShowWarning (lit "警告") (lit "录制已在运行中！").

Definition warn_not_running : Event :=
  EvShowWarning (lit "警告") (lit "没有正在运行的录制进程！").

(** The handle the sample environments give to the first child. *)
Definition first_child : Popen := {| handle := 0; pid := 4242 |}.

(** The application while a [stop_recording] on [p] is inside
    [self.process.wait(timeout=3)]: lines 379-382 have run.  The tray
    thread can call [stop_recording] at this moment, through
    [SystemTray.on_exit] and [quit_application] (lines 50-52, 475-479). *)
Definition stop_in_flight (env : Env) (p : Popen) (w : App) : App :=
  snd ((_log env separator info ;;
        ts <- _get_timestamp env ;;
        _log env (lit "[" ++ ts ++ lit "] 正在停止录制...") info ;;
        terminate env p) w).

(** The project's own interpreter, [venv/Scripts/python.exe] under the
    script directory (line 332). *)
Definition venv_python (env : Env) : pystr :=
  os_path_join env (script_dir env)
               [lit "venv"; lit "Scripts"; lit "python.exe"].

(** The raw line ["\x1b[31mERROR\x1b[0m"]. *)
Definition raw_error_line : pystr :=
  ([27; 91; 51; 49; 109] ++ lit "ERROR" ++ [27; 91; 48; 109])%N.

(** The raw line ["ERROR \x1b[0m\n"]: a blank before the closing
    colour reset. *)
Definition raw_blank_before_reset : pystr :=
  (lit "ERROR " ++ [27; 91; 48; 109; 10])%N.

(** The raw line ["\x1b[\x1b[0m0m"]: a colour reset inside the pieces
    of another one. *)
Definition raw_nested_reset : pystr :=
  [27; 91; 27; 91; 48; 109; 48; 109]%N.

(* ===================================================================== *)
(** ** Further observations on a trace *)
(* ===================================================================== *)

Definition is_thread_start (e : Event) : bool :=
  match e with EvThreadStart _ => true | _ => false end.

Definition is_status_var (e : Event) : bool :=
  match e with EvStatusVar _ => true | _ => false end.

Definition is_readline (e : Event) : bool :=
  match e with EvReadline _ _ => true | _ => false end.

(** What [_log(l)] writes for each line of [ls], the first at time [t]:
    a reading of the clock, then the line put into the log view. *)
Fixpoint log_events (env : Env) (t : nat) (ls : list pystr) : list Event :=
  match ls with
  | [] => []
  | l :: ls' =>
      EvClock (clock env t)
      :: EvLogInsert (lit "[" ++ clock env t ++ lit "] " ++ l ++ [10%N])
                     (lit "normal")
      :: log_events env (S t) ls'
  end.

(** The main loop running [n] queued callbacks one after the other. *)
Fixpoint drain (env : Env) (n : nat) (w : App) : App :=
  match n with
  | O => w
  | S n' => drain env n' (mainloop_step env w)
  end.

(** The relay thread going [n] times through its loop. *)
Fixpoint relay_passes (env : Env) (n : nat) (w : App) : App :=
  match n with
  | O => w
  | S n' => relay_pass env (relay_passes env n' w)
  end.

(** A coloured line, a plain line, and a last line without newline. *)
Definition three_lines : list pystr :=
  [([27; 91; 51; 50; 109] ++ lit "recording" ++ [27; 91; 48; 109; 10])%N;
   lit "segment 1 saved" ++ [10%N];
   lit "done"].

(** A raw line, cut into plain text and colour sequences. *)
Inductive Piece :=
| Plain (text : pystr)
| Colour (e : pystr).

(** The raw line made of the pieces. *)
Definition flat (pieces : list Piece) : pystr :=
  concat (map (fun x => match x with Plain t => t | Colour e => e end)
              pieces).

(** Its plain text alone. *)
Definition plain_text (pieces : list Piece) : pystr :=
  concat (map (fun x => match x with Plain t => t | Colour _ => [] end)
              pieces).

(** Plain text holds no ESC; a colour piece is one match of the
    pattern. *)
Definition well_formed (x : Piece) : Prop :=
  match x with
  | Plain t => ~ In AnsiPattern.ESC t
  | Colour e => AnsiPattern.is_seq e
  end.



(* ===================================================================== *)
(** ** Editing the configuration files *)
(* ===================================================================== *)

(** [s.rstrip('\n')] *)
Definition rstrip_newlines (s : pystr) : pystr :=
  fold_right
    (fun c acc =>
       match acc with
       | [] => if (c =? 10)%N then [] else [c]
       | _ :: _ => c :: acc
       end) [] s.

(** Lines 291-293 and 143-145: the text written to the file, from what
    [self.config_text.get(1.0, tk.END)] gave. *)
Definition content_to_write (got : pystr) : pystr :=
  let content := rstrip_newlines got in
  if match content with [] => false | _ :: _ => true end
     && negb (endswith content [10%N])
  then content ++ [10%N]
  else content.

(** [Text.get(1.0, tk.END)]: the text of the widget and the newline Tk
    keeps after it. *)
Definition text_get (text : pystr) : pystr := text ++ [10%N].

(** The text [AdvancedSettingsWindow] shows for a missing file. *)
Definition missing_file_text : pystr := lit "# 配置文件不存在，请新建".

(** [os.linesep]: "\r\n" on Windows, "\n" elsewhere. *)
Definition os_linesep (env : Env) : pystr :=
  if pystr_eqb (sys_platform env) (lit "win32") then [13; 10]%N
  else [10%N].

(** What [f.write(s)] puts into a file opened with [open(path, 'w')]:
    the text layer writes [os.linesep] for every "\n". *)
Definition write_newlines (linesep s : pystr) : pystr :=
  flat_map (fun c => if (c =? 10)%N then linesep else [c]) s.

(** What [f.read()] gives for a file opened with [open(path, 'r')]:
    the text layer reads "\r\n" and a single "\r" as "\n"
    (universal newlines). *)
Fixpoint universal_newlines (s : pystr) : pystr :=
  match s with
  | [] => []
  | c :: rest =>
      if (c =? 13)%N then
        10%N :: match rest with
                | [] => []
                | d :: rest' =>
                    if (d =? 10)%N then universal_newlines rest'
                    else universal_newlines rest
                end
      else c :: universal_newlines rest
  end.

(** Calls of the editors that are no [Event]. *)
Inductive FileCall :=
| FcMakedirs (path : pystr)                 (* os.makedirs(.., exist_ok=True) *)
| FcWrite (path content : pystr) (res : option Exn)
| FcRead (path : pystr) (res : option Exn)
| FcShowInfo (title message : pystr)        (* messagebox.showinfo *)
| FcDestroy.                                (* self.window.destroy() *)

(** What the file system answers beyond the content of the file: the
    path functions, and whether writing or reading a path fails (with
    what is left of the file after a failed write). *)
Record FsEnv := {
  os_path_dirname : pystr -> pystr;
  write_result : pystr -> pystr -> option (Exn * option pystr);
  read_result : pystr -> option Exn
}.

(** An editor of one file: the main window with URL_config.ini or an
    [AdvancedSettingsWindow] with config.ini.  [ed_file] is the text
    stored in the file, with the line ends it has there (the utf-8-sig
    codec of [open] is not modelled); [None]: no file.  [FcWrite]
    records the text handed to [f.write]. *)
Record Editor := {
  ed_app : App;
  ed_path : pystr;               (* url_config_file / config_file *)
  ed_text : pystr;               (* content of self.config_text *)
  ed_file : option pystr;
  ed_window : bool;              (* the Toplevel exists *)
  ed_calls : list FileCall
}.

Definition ed_update (a : App) (text : pystr) (file : option pystr)
    (window : bool) (calls : list FileCall) (g : Editor) : Editor :=
  {| ed_app := a; ed_path := ed_path g; ed_text := text; ed_file := file;
     ed_window := window; ed_calls := ed_calls g ++ calls |}.

(** [LiveRecorderGUI.save_config] (lines 288-301). *)
Definition gui_save_config (env : Env) (fs : FsEnv) (g : Editor) : Editor :=
  let content := content_to_write (text_get (ed_text g)) in
  match write_result fs (ed_path g) content with
  | None =>
      ed_update (exec (_log env (lit "URL 配置已保存") info) (ed_app g))
                (ed_text g) (Some (write_newlines (os_linesep env) content))
                (ed_window g)
                [FcWrite (ed_path g) content None;
                 FcShowInfo (lit "成功") (lit "URL 配置已保存成功！")] g
  | Some (e, left_behind) =>
      ed_update
        (exec (_log env (lit "保存配置文件失败: " ++ str_of_exn e) error ;;
               emit (EvShowError (lit "错误")
                       (lit "保存配置文件失败: " ++ str_of_exn e)))
              (ed_app g))
        (ed_text g) left_behind (ed_window g)
        [FcWrite (ed_path g) content (Some e)] g
  end.

(** [LiveRecorderGUI._load_config] (lines 270-286).  [os.makedirs] and
    the creation of a missing file stand outside the [try] and are
    taken to return; reading does not change the file. *)
Definition gui_load_config (env : Env) (fs : FsEnv) (g : Editor) : Editor :=
  let config_dir := os_path_dirname fs (ed_path g) in
  let created :=
    match ed_file g with
    | None => [FcWrite (ed_path g) [] None]
    | Some _ => []
    end in
  let stored :=
    match ed_file g with
    | None => []
    | Some c => c
    end in
  match read_result fs (ed_path g) with
  | None =>
      let content := universal_newlines stored in
      ed_update (exec (_log env (lit "配置文件已加载") info) (ed_app g))
                content (Some stored) (ed_window g)
                (FcMakedirs config_dir :: created
                 ++ [FcRead (ed_path g) None]) g
  | Some e =>
      ed_update
        (exec (_log env (lit "加载配置文件失败: " ++ str_of_exn e) error)
              (ed_app g))
        (ed_text g) (Some stored) (ed_window g)
        (FcMakedirs config_dir :: created
         ++ [FcRead (ed_path g) (Some e)]) g
  end.

(** [AdvancedSettingsWindow._load_config] (lines 127-138). *)
Definition adv_load_config (fs : FsEnv) (g : Editor) : Editor :=
  match ed_file g with
  | None =>                                   (* FileNotFoundError *)
      ed_update (ed_app g) missing_file_text None (ed_window g) [] g
  | Some stored =>
      match read_result fs (ed_path g) with
      | None =>
          let content := universal_newlines stored in
          ed_update (ed_app g) content (Some stored) (ed_window g)
                    [FcRead (ed_path g) None] g
      | Some e =>
          ed_update
            (exec (emit (EvShowError (lit "错误")
                           (lit "加载配置文件失败: " ++ str_of_exn e)))
                  (ed_app g))
            (ed_text g) (Some stored) (ed_window g)
            [FcRead (ed_path g) (Some e)] g
      end
  end.

(** [AdvancedSettingsWindow.save_config] (lines 140-155); the
    [log_callback] is [LiveRecorderGUI._log] (line 322). *)
Definition adv_save_config (env : Env) (fs : FsEnv) (g : Editor) : Editor :=
  let content := content_to_write (text_get (ed_text g)) in
  match write_result fs (ed_path g) content with
  | None =>
      ed_update (exec (_log env (lit "高级设置配置已保存") info) (ed_app g))
                (ed_text g) (Some (write_newlines (os_linesep env) content))
                false
                [FcWrite (ed_path g) content None;
                 FcShowInfo (lit "成功") (lit "配置文件已保存！");
                 FcDestroy] g
  | Some (e, left_behind) =>
      ed_update
        (exec (emit (EvShowError (lit "错误")
                       (lit "保存配置文件失败: " ++ str_of_exn e)))
              (ed_app g))
        (ed_text g) left_behind (ed_window g)
        [FcWrite (ed_path g) content (Some e)] g
  end.

Definition is_fc_write (c : FileCall) : bool :=
  match c with FcWrite _ _ _ => true | _ => false end.

Definition is_fc_show_info (c : FileCall) : bool :=
  match c with FcShowInfo _ _ => true | _ => false end.

(** A file system on which nothing fails. *)
Definition fs_fine : FsEnv :=
  {| os_path_dirname := fun p => p;
     write_result := fun _ _ => None;
     read_result := fun _ => None |}.

(** A file system on which every write is refused, the file staying as
    [left]. *)
Definition fs_read_only (left : option pystr) : FsEnv :=
  {| os_path_dirname := fun p => p;
     write_result :=
       fun _ _ => Some (PyException (lit "[Errno 13] Permission denied"), left);
     read_result := fun _ => None |}.

(** An editor window on [file] in the freshly built application. *)
Definition editor_on (text : pystr) (file : option pystr) : Editor :=
  {| ed_app := init; ed_path := lit "/opt/recorder/config/URL_config.ini";
     ed_text := text; ed_file := file; ed_window := true; ed_calls := [] |}.

(* ===================================================================== *)
(** ** The tray, leaving the application, the downloads folder *)
(* ===================================================================== *)

(** A [SystemTray] object: whether [self.icon] is set, and
    [self.running]. *)
Record Tray := { icon : bool; tray_running : bool }.

(** Calls of the window and the tray that are no [Event]. *)
Inductive DeskCall :=
| DcAskOkCancel (title message : pystr) (answer : bool)
| DcIconRun                                  (* self.icon.run() *)
| DcIconStop                                 (* self.icon.stop() *)
| DcIconNotify (message title : pystr) (res : option Exn)
| DcWithdraw                                 (* root.withdraw() *)
| DcDeiconify                                (* root.deiconify() *)
| DcLift                                     (* root.lift() *)
| DcRootQuit                                 (* root.quit() *)
| DcRootDestroy                              (* root.destroy() *)
| DcSysExit (code : Z)                       (* sys.exit(0) *)
| DcMakedirs (path : pystr)
| DcStartfile (path : pystr) (res : option Exn)        (* os.startfile *)
| DcPopen (argv : list pystr) (res : option Exn).      (* subprocess.Popen *)

(** The application with its tray; [d_app] keeps, in [system_tray],
    the [running] flag of the tray for [_update_status_bar]. *)
Record Desktop := {
  d_app : App;
  d_tray : option Tray;
  d_calls : list DeskCall;
  d_exited : bool                (* sys.exit was reached *)
}.

(** [main] (lines 526-529): the window, then the tray object. *)
Definition desk_init : Desktop :=
  {| d_app := set_system_tray (Some false) init;
     d_tray := Some {| icon := false; tray_running := false |};
     d_calls := []; d_exited := false |}.

Definition with_tray (t : Tray) (calls : list DeskCall) (d : Desktop)
    : Desktop :=
  {| d_app := set_system_tray (Some (tray_running t)) (d_app d);
     d_tray := Some t;
     d_calls := d_calls d ++ calls; d_exited := d_exited d |}.

Definition with_calls (calls : list DeskCall) (d : Desktop) : Desktop :=
  {| d_app := d_app d; d_tray := d_tray d;
     d_calls := d_calls d ++ calls; d_exited := d_exited d |}.

(** [SystemTray.run] (lines 59-75), up to the call of [icon.run()]. *)
Definition tray_run (d : Desktop) : Desktop :=
  match d_tray d with
  | Some _ => with_tray {| icon := true; tray_running := true |} [DcIconRun] d
  | None => d
  end.

(** [SystemTray.stop] (lines 77-81). *)
Definition tray_stop (d : Desktop) : Desktop :=
  match d_tray d with
  | Some t =>
      if icon t && tray_running t
      then with_tray {| icon := icon t; tray_running := false |}
                     [DcIconStop] d
      else d
  | None => d
  end.

(** [SystemTray.notify] (lines 83-89); [res] is what [icon.notify]
    answers. *)
Definition tray_notify (message title : pystr) (res : option Exn)
    (d : Desktop) : Desktop :=
  match d_tray d with
  | Some t =>
      if icon t then with_calls [DcIconNotify message title res] d else d
  | None => d
  end.

(** [SystemTray.on_show] and [on_minimize] (lines 44-48, 54-57); the
    window [gui.root] exists. *)
Definition tray_on_show (d : Desktop) : Desktop :=
  with_calls [DcDeiconify; DcLift] d.

Definition tray_on_minimize (d : Desktop) : Desktop :=
  with_calls [DcWithdraw] d.

(** [LiveRecorderGUI.minimize_to_tray] (lines 469-473). *)
Definition minimize_to_tray (res : option Exn) (d : Desktop) : Desktop :=
  let d1 := with_calls [DcWithdraw] d in
  match d_tray d1 with
  | Some _ =>
      tray_notify (lit "程序已最小化到系统托盘，双击托盘图标可恢复窗口")
                  (lit "直播录制器") res d1
  | None => d1
  end.

(** Lines 483-488 of [quit_application]. *)
Definition leave (d : Desktop) : Desktop :=
  let d1 := match d_tray d with Some _ => tray_stop d | None => d end in
  {| d_app := d_app d1; d_tray := d_tray d1;
     d_calls := d_calls d1 ++ [DcRootQuit; DcRootDestroy; DcSysExit 0];
     d_exited := true |}.

(** [LiveRecorderGUI.quit_application] (lines 475-488); [answer] is
    what the user says to the confirmation. *)
Definition quit_application (env : Env) (answer : bool) (d : Desktop)
    : Desktop :=
  match process (d_app d) with
  | Some _ =>
      let d1 :=
        with_calls [DcAskOkCancel (lit "退出确认")
                      (lit "录制正在后台进行，确定要退出吗？") answer] d in
      if answer then
        leave {| d_app := exec (stop_recording env) (d_app d1);
                 d_tray := d_tray d1; d_calls := d_calls d1;
                 d_exited := d_exited d1 |}
      else d1
  | None => leave d
  end.

(** [self.downloads_dir] (line 172). *)
Definition downloads_dir (env : Env) : pystr :=
  os_path_join env (script_dir env) [lit "downloads"].

(** [LiveRecorderGUI.open_downloads_folder] (lines 303-318); [res] is
    what the launcher answers.  [os.makedirs] is taken to return. *)
Definition open_downloads_folder (env : Env) (res : option Exn)
    (d : Desktop) : Desktop :=
  let downloads_path := downloads_dir env in
  let made :=
    if negb (os_path_exists env downloads_path)
    then [DcMakedirs downloads_path] else [] in
  let launch :=
    if pystr_eqb (sys_platform env) (lit "win32")
    then DcStartfile downloads_path res
    else if pystr_eqb (sys_platform env) (lit "darwin")
         then DcPopen [lit "open"; downloads_path] res
         else DcPopen [lit "xdg-open"; downloads_path] res in
  let logged :=
    match res with
    | None => _log env (lit "已打开下载目录: " ++ downloads_path) info
    | Some e => _log env (lit "打开目录失败: " ++ str_of_exn e) error
    end in
  {| d_app := exec logged (d_app d); d_tray := d_tray d;
     d_calls := d_calls d ++ made ++ [launch]; d_exited := d_exited d |}.

(** The calls of the window and the tray made since [d]. *)
Definition calls_since (d d' : Desktop) : list DeskCall :=
  skipn (length (d_calls d)) (d_calls d').

Definition is_dc_icon_stop (c : DeskCall) : bool :=
  match c with DcIconStop => true | _ => false end.

Definition is_dc_launch (c : DeskCall) : bool :=
  match c with DcStartfile _ _ | DcPopen _ _ => true | _ => false end.

(** A macOS machine without a downloads folder. *)
Definition mac_without_downloads : Env :=
  {| sys_platform := lit "darwin";
     sys_executable := lit "/usr/local/bin/python3";
     script_dir := lit "/Users/me/recorder";
     preferred_encoding := lit "UTF-8";
     os_path_join := Sample.join;
     os_path_exists := fun _ => false;
     clock := fun _ => lit "2024-05-01 12:00:00";
     popen_result := fun _ _ => inr 4242%Z;
     terminate_result := fun _ _ => None;
     wait_result := fun _ _ _ => inr 0%Z;
     kill_result := fun _ _ => None;
     readline_result := fun _ _ => inr [];
     poll_result := fun _ _ => Some 0%Z |}.

(** A Linux machine on which every path exists, the clock stands still
    and waiting for the child and killing it succeed; what [Popen],
    [terminate()], [readline()] and [poll()] answer is given. *)
Definition linux_box (popen_res : Exn + Z) (term_res : option Exn)
    (read : nat -> pystr) (poll_res : option Z) : Env :=
  {| sys_platform := lit "linux";
     sys_executable := lit "/usr/bin/python3";
     script_dir := lit "/opt/recorder";
     preferred_encoding := lit "UTF-8";
     os_path_join := Sample.join;
     os_path_exists := fun _ => true;
     clock := fun _ => lit "2024-05-01 12:00:00";
     popen_result := fun _ _ => popen_res;
     terminate_result := fun _ _ => term_res;
     wait_result := fun _ _ _ => inr 0%Z;
     kill_result := fun _ _ => None;
     readline_result := fun t _ => inr (read t);
     poll_result := fun _ _ => poll_res |}.

(** A child that cannot be signalled: [terminate()] raises. *)
Definition env_terminate_fails : Env :=
  linux_box (inr 4242%Z)
            (Some (PyException (lit "[Errno 1] Operation not permitted")))
            (fun _ => []) (Some 0%Z).

(** A machine on which [Popen] fails. *)
Definition env_spawn_fails : Env :=
  linux_box (inl (PyException (lit "[Errno 2] No such file or directory")))
            None (fun _ => []) (Some 0%Z).

(** A child that prints the given lines from time [t0] on, then ends. *)
Definition env_prints (t0 : nat) (lines : list pystr) : Env :=
  linux_box (inr 4242%Z) None (fun t => nth (t - t0) lines []) (Some 0%Z).

(** A child that closes its output and lives on. *)
Definition env_silent_alive : Env :=
  linux_box (inr 4242%Z) None (fun _ => []) None.


(* ===================================================================== *)
(** ** Auxiliary facts and symbolic execution *)
(* ===================================================================== *)

Lemma pystr_eqb_eq a b : pystr_eqb a b = true <-> a = b.
Proof.
  unfold pystr_eqb. destruct (pystr_eq_dec a b); split; congruence.
Qed.

Lemma pystr_eqb_refl a : pystr_eqb a a = true.
Proof. apply pystr_eqb_eq. reflexivity. Qed.

Example lit_ascii : lit "ERROR" = [69; 82; 82; 79; 82]%N.
Proof. reflexivity. Qed.

Example lit_cjk : lit "警告" = [35686; 21578]%N.
Proof. reflexivity. Qed.

Example clean_line_error :
  clean_line ([27; 91; 51; 49; 109] ++ lit "ERROR" ++ [27; 91; 48; 109; 10])%N
  = lit "ERROR".
Proof. reflexivity. Qed.

Lemma info_is_not_error : pystr_eqb info (lit "error") = false.
Proof. reflexivity. Qed.

Lemma error_is_error : pystr_eqb error (lit "error") = true.
Proof. reflexivity. Qed.

Lemma skipn_length_app {A} (l r : list A) : skipn (length l) (l ++ r) = r.
Proof. induction l; simpl; auto. Qed.

Lemma events_since_app (w w' : App) (evs : list Event) :
  trace w' = trace w ++ evs -> events_since w w' = evs.
Proof. unfold events_since. intros ->. apply skipn_length_app. Qed.

Lemma events_since_refl (w : App) : events_since w w = [].
Proof. apply events_since_app. symmetry. apply app_nil_r. Qed.

Lemma startswith_app (s rest : pystr) : startswith (s ++ rest) s = true.
Proof.
  induction s as [|c s IH]; simpl; [reflexivity|].
  rewrite N.eqb_refl. exact IH.
Qed.

Lemma startswith_longer (s rest prefix : pystr) :
  length prefix <= length s ->
  startswith (s ++ rest) prefix = startswith s prefix.
Proof.
  revert s. induction prefix as [|a prefix IH]; intros s Hlen.
  - reflexivity.
  - destruct s as [|b s]; simpl in *; [lia|].
    rewrite IH by lia. reflexivity.
Qed.

Lemma endswith_app (s suffix : pystr) : endswith (s ++ suffix) suffix = true.
Proof. unfold endswith. rewrite rev_app_distr. apply startswith_app. Qed.

(** Only the end of a text decides [endswith]. *)
Lemma endswith_skip (a rest suffix : pystr) :
  length suffix <= length rest ->
  endswith (a ++ rest) suffix = endswith rest suffix.
Proof.
  intros H. unfold endswith. rewrite rev_app_distr.
  apply startswith_longer. rewrite !length_rev. exact H.
Qed.

(** Unfold the monad and the record updates of a method body. *)
Ltac run_method :=
  cbv [exec bind get try_except try_except_timeout ret modify emit raise
       _log _get_timestamp _update_status_bar terminate wait kill
       stdout_readline poll root_after start_output_thread
       subprocess_Popen _process_ended run_callback];
  rewrite ?info_is_not_error, ?error_is_error;
  cbn [fst snd trace ticks process process_pid running system_tray
       after_queue output_thread set_trace set_process set_process_pid
       set_running set_after_queue set_output_thread set_system_tray
       answered].

(** Bring [events_since w w'] to the explicit list of new events. *)
Ltac new_events :=
  unfold events_since;
  cbn [fst snd trace ticks process process_pid running system_tray
       after_queue output_thread set_trace set_process set_process_pid
       set_running set_after_queue set_output_thread set_system_tray
       answered];
  rewrite <- ?app_assoc; cbn [app];
  rewrite ?skipn_length_app.

(** Replace the length of a literal by its value. *)
Ltac closed_lengths :=
  rewrite ?length_app;
  repeat match goal with
         | |- context [length (lit ?s)] =>
             let n := eval vm_compute in (length (lit s)) in
             change (length (lit s)) with n
         | |- context [length separator] =>
             let n := eval vm_compute in (length separator) in
             change (length separator) with n
         | |- context [length msg_forced_kill] =>
             let n := eval vm_compute in (length msg_forced_kill) in
             change (length msg_forced_kill) with n
         | |- context [length msg_ended] =>
             let n := eval vm_compute in (length msg_ended) in
             change (length msg_ended) with n
         | |- context [length msg_stopped] =>
             let n := eval vm_compute in (length msg_stopped) in
             change (length msg_stopped) with n
         end;
  cbn [length]; lia.

(** Decide [endswith] on a text whose end is a literal. *)
Ltac peel_endswith :=
  repeat rewrite endswith_skip by closed_lengths.

(* ===================================================================== *)
(** ** Rejected calls *)
(* ===================================================================== *)

Lemma start_recording_rejected (env : Env) (w : App) (p : Popen) :
  process w = Some p ->
  start_recording env w
  = (Ok tt, set_trace (trace w ++ [warn_already_running]) w).
Proof.
  intros H. unfold start_recording. run_method. rewrite H. reflexivity.
Qed.

Lemma stop_recording_rejected (env : Env) (w : App) :
  process w = None ->
  stop_recording env w
  = (Ok tt, set_trace (trace w ++ [warn_not_running]) w).
Proof.
  intros H. unfold stop_recording. run_method. rewrite H. reflexivity.
Qed.

(** C1.  When a supervised process is active ([self.process] is set),
    [start_recording] only shows the warning "录制已在运行中！" (the
    program's AlreadyRunning): no [Popen] call is made, nothing else is
    called, and the handle, the pid, the running flag, the relay thread
    and the shown status stay as they were. *)
Theorem start_while_active_is_rejected (env : Env) (w : App) (p : Popen) :
  process w = Some p ->
  let w' := exec (start_recording env) w in
  events_since w w' = [warn_already_running]
  /\ count_events is_popen (events_since w w') = 0
  /\ process w' = Some p
  /\ process_pid w' = process_pid w
  /\ running w' = running w
  /\ output_thread w' = output_thread w
  /\ after_queue w' = after_queue w
  /\ status_history (trace w') = status_history (trace w).
Proof.
  intros H w'. subst w'. unfold exec.
  rewrite (start_recording_rejected env w H). cbn [snd].
  assert (E : events_since w (set_trace (trace w ++ [warn_already_running]) w)
              = [warn_already_running])
    by (apply events_since_app; reflexivity).
  rewrite E. repeat split; try assumption.
  cbn [trace set_trace]. unfold status_history.
  rewrite filter_app. cbn. rewrite app_nil_r. reflexivity.
Qed.

Lemma start_while_active_is_rejected_witness :
  let w := exec (start_recording Sample.graceful) init in
  let w' := exec (start_recording Sample.graceful) w in
  process w = Some {| handle := 0; pid := 4242 |}
  /\ events_since w w' = [warn_already_running]
  /\ process w' = Some {| handle := 0; pid := 4242 |}.
Proof.
  intros w w'.
  assert (Ha : process w = Some {| handle := 0; pid := 4242 |})
    by (vm_compute; reflexivity).
  destruct (@start_while_active_is_rejected Sample.graceful w _ Ha)
    as (He & _ & Hp & _).
  split; [exact Ha|]. split; [exact He | exact Hp].
Defined.

(** C2.  When no supervised process is active ([self.process] is None),
    [stop_recording] only shows the warning "没有正在运行的录制进程！"
    (the program's NotRunning): no terminate, wait or kill is sent, no
    line is written to the log, and status and attributes are unchanged. *)
Theorem stop_while_idle_is_rejected (env : Env) (w : App) :
  process w = None ->
  let w' := exec (stop_recording env) w in
  events_since w w' = [warn_not_running]
  /\ count_events is_terminate (events_since w w') = 0
  /\ count_events is_kill (events_since w w') = 0
  /\ count_events is_log_insert (events_since w w') = 0
  /\ process w' = None
  /\ process_pid w' = process_pid w
  /\ running w' = running w
  /\ output_thread w' = output_thread w
  /\ after_queue w' = after_queue w
  /\ status_history (trace w') = status_history (trace w).
Proof.
  intros H w'. subst w'. unfold exec.
  rewrite (stop_recording_rejected env w H). cbn [snd].
  assert (E : events_since w (set_trace (trace w ++ [warn_not_running]) w)
              = [warn_not_running])
    by (apply events_since_app; reflexivity).
  rewrite E. repeat split; try assumption.
  cbn [trace set_trace]. unfold status_history.
  rewrite filter_app. cbn. rewrite app_nil_r. reflexivity.
Qed.

Lemma stop_while_idle_is_rejected_witness :
  let w' := exec (stop_recording Sample.graceful) init in
  events_since init w' = [warn_not_running]
  /\ process w' = None /\ running w' = false.
Proof.
  intros w'.
  destruct (@stop_while_idle_is_rejected Sample.graceful init eq_refl)
    as (He & _ & _ & _ & Hp & _ & Hr & _).
  split; [exact He|]. split; [exact Hp | exact Hr].
Defined.

(* ===================================================================== *)
(** ** stop_recording on an active process *)
(* ===================================================================== *)

Lemma tag_normal_is_normal : pystr_eqb (lit "normal") (lit "normal") = true.
Proof. reflexivity. Qed.

Lemma tag_error_is_not_normal : pystr_eqb (lit "error") (lit "normal") = false.
Proof. reflexivity. Qed.

Lemma tag_normal_is_not_error : pystr_eqb (lit "normal") (lit "error") = false.
Proof. reflexivity. Qed.

Lemma tag_error_is_error : pystr_eqb (lit "error") (lit "error") = true.
Proof. reflexivity. Qed.

Lemma status_history_app (tr evs : list Event) :
  status_history (tr ++ evs)
  = status_history tr ++ map status_of_event (filter is_status_label evs).
Proof.
  unfold status_history. rewrite filter_app, map_app. reflexivity.
Qed.

Ltac trace_norm :=
  cbn [fst snd trace ticks process process_pid running system_tray
       after_queue output_thread set_trace set_process set_process_pid
       set_running set_after_queue set_output_thread set_system_tray
       answered];
  rewrite <- ?app_assoc; cbn [app].

(** Split [stop_recording] on an active process into its five paths:
    terminate raises; the wait times out and kill raises or returns; the
    wait raises something else; the wait returns. *)
Ltac stop_paths H :=
  unfold stop_recording; run_method; rewrite H; run_method;
  destruct (terminate_result _ _ _) as [?e|] eqn:?Eterm; run_method;
  [| destruct (wait_result _ _ _ _) as [[?m|?m]|?rc] eqn:?Ewait; run_method;
     [ destruct (kill_result _ _ _) as [?e|] eqn:?Ekill; run_method | | ] ].

(** Evaluate the [endswith] tests on log lines whose end is a literal. *)
Ltac decide_endswith :=
  rewrite ?tag_normal_is_normal, ?tag_error_is_not_normal,
          ?tag_normal_is_not_error, ?tag_error_is_error;
  cbn [andb];
  repeat match goal with
         | |- context [endswith (?a ++ ?r) ?s] =>
             first
               [ rewrite (endswith_skip a r s) by closed_lengths
               | let b := eval vm_compute in (endswith (a ++ r) s) in
                 match b with true => idtac | false => idtac end;
                 change (endswith (a ++ r) s) with b ]
         end.

(** Membership in an explicit list of events. *)
Ltac in_events H :=
  cbn [In] in H;
  repeat match type of H with
         | _ \/ _ => destruct H as [H|H]
         end;
  try discriminate H; try contradiction.

(** Split [start_recording] without an active process into its two
    paths: [Popen] raises, or it returns the new process. *)
Ltac start_paths H :=
  unfold start_recording; run_method; rewrite H; run_method;
  destruct (popen_result _ _ _) as [?e|?n] eqn:?Epopen; run_method.


(** *** Between and after the presses of a button *)













(** C4 (as the program has it).  For a [stop_recording] on an active
    process: when [wait(timeout=3)] returns, [kill()] is not called and
    no "进程已强制终止" line is logged; when it times out, [kill()] is
    called exactly once, and if that call returns, exactly one
    "进程已强制终止" line is logged, the process is cleared and the
    status goes to Idle; if the [kill()] call itself raises, the failure
    is logged as one error line and shown in one error dialog, no
    forced-kill line is logged and process and status stay as they
    were. *)
Theorem stop_escalation (env : Env) (w : App) (p : Popen) :
  process w = Some p ->
  let w' := exec (stop_recording env) w in
  let evs := events_since w w' in
  (forall rc, In (EvWait p 3 (inr rc)) evs ->
     count_events is_kill evs = 0
     /\ count_events (logs_message msg_forced_kill) evs = 0
     /\ process w' = None
     /\ status_history (trace w')
        = status_history (trace w) ++ [Some Idle])
  /\ (forall m, In (EvWait p 3 (inl (TimeoutExpired m))) evs ->
        count_events is_kill evs = 1
        /\ (In (EvKill p None) evs ->
            count_events (logs_message msg_forced_kill) evs = 1
            /\ process w' = None
            /\ status_history (trace w')
               = status_history (trace w) ++ [Some Idle])
        /\ (forall e, In (EvKill p (Some e)) evs ->
            count_events (logs_message msg_forced_kill) evs = 0
            /\ count_events is_error_line evs = 1
            /\ count_events is_show_error evs = 1
            /\ In (EvShowError (lit "错误")
                     (lit "停止录制失败: " ++ str_of_exn e)) evs
            /\ process w' = Some p
            /\ status_history (trace w') = status_history (trace w))).
Proof.
  intros H w' evs. subst evs w'.
  stop_paths H; new_events; trace_norm; rewrite ?status_history_app.
  all: split; [intros rc0 Hin | intros m0 Hin].
  all: in_events Hin; clear Hin.
  all: repeat match goal with
              | |- _ /\ _ => split
              | |- In _ _ -> _ =>
                  let Hk := fresh "Hk" in
                  intros Hk; in_events Hk; clear Hk
              | |- forall e : Exn, _ =>
                  let Hk := fresh "Hk" in
                  intros ? Hk; in_events Hk;
                  try (injection Hk as Hk; subst); try clear Hk
              end.
  all: try assumption.
  all: lazymatch goal with
       | |- count_events is_kill _ = _ => reflexivity
       | |- count_events is_show_error _ = _ => reflexivity
       | |- In _ _ =>
           cbn [In]; repeat first [left; reflexivity | right]
       | |- count_events _ _ = _ =>
           unfold count_events; cbn [filter logs_message is_error_line];
           decide_endswith; reflexivity
       | |- _ ++ _ = _ ++ _ => reflexivity
       | |- _ ++ _ = _ => cbn [filter is_status_label map]; apply app_nil_r
       | |- _ => reflexivity
       end.
Qed.

Lemma stop_escalation_witness :
  let w := Sample.started Sample.stubborn in
  let w' := exec (stop_recording Sample.stubborn) w in
  let evs := events_since w w' in
  process w = Some first_child
  /\ count_events is_kill evs = 1
  /\ count_events (logs_message msg_forced_kill) evs = 1
  /\ process w' = None.
Proof.
  intros w w' evs.
  assert (Ha : process w = Some first_child) by (vm_compute; reflexivity).
  destruct (@stop_escalation Sample.stubborn w first_child Ha)
    as (_ & Htimeout).
  assert (Hin : In (EvWait first_child 3 (inl Sample.timeout3)) evs)
    by (vm_compute; tauto).
  destruct (Htimeout _ Hin) as (Hk & Hok & _).
  assert (Hkill : In (EvKill first_child None) evs)
    by (vm_compute; tauto).
  destruct (Hok Hkill) as (Hc & Hp & _).
  split; [exact Ha|]. split; [exact Hk|]. split; [exact Hc | exact Hp].
Defined.

(** C4, as stated, fails: the wait times out and [kill()] raises; the
    kill was attempted once, yet no forced-kill line is logged, the
    process is still set and the status still shows Running. *)
Lemma stop_kill_failure_keeps_running :
  let w := Sample.started Sample.unkillable in
  let w' := exec (stop_recording Sample.unkillable) w in
  let evs := events_since w w' in
  In (EvWait first_child 3 (inl Sample.timeout3)) evs
  /\ count_events is_kill evs = 1
  /\ count_events (logs_message msg_forced_kill) evs = 0
  /\ process w' = Some first_child
  /\ last (status_history (trace w')) None = Some Running.
Proof.
  vm_compute. repeat split. tauto.
Qed.

(* ===================================================================== *)
(** ** The output relay and the end of the child *)
(* ===================================================================== *)

(** C5.  The child ends by itself while the relay runs ([running] set,
    process set): [readline()] gives the empty string and [poll()] a
    return code.  Then the relay loop ends after queueing
    [_process_ended] exactly once, calling neither terminate nor kill;
    when the main loop runs that callback, handle, pid and running flag
    are cleared, the status label changes once, to Idle, and exactly one
    "录制进程已结束" line is logged, whose wording differs from the
    "录制进程已停止" of a requested stop. *)
Theorem unexpected_exit (env : Env) (w : App) (p : Popen) (fuel : nat) (rc : Z) :
  running w = true ->
  process w = Some p ->
  readline_result env (ticks w) p = inr [] ->
  poll_result env (S (ticks w)) p = Some rc ->
  (exists w1,
      _read_output env (S fuel) w = Some w1
      /\ after_queue w1 = after_queue w ++ [CbProcessEnded]
      /\ events_since w w1 = [EvReadline p (inr []); EvPoll p (Some rc)]
      /\ process w1 = Some p /\ process_pid w1 = process_pid w
      /\ running w1 = true)
  /\ (forall w2 q,
        after_queue w2 = CbProcessEnded :: q ->
        let w3 := mainloop_step env w2 in
        let evs := events_since w2 w3 in
        process w3 = None /\ process_pid w3 = None /\ running w3 = false
        /\ after_queue w3 = q
        /\ status_history (trace w3) = status_history (trace w2) ++ [Some Idle]
        /\ count_events (logs_message msg_ended) evs = 1
        /\ count_events (logs_message msg_stopped) evs = 0
        /\ count_events is_terminate evs = 0
        /\ count_events is_kill evs = 0)
  /\ msg_ended <> msg_stopped.
Proof.
  intros Hrun Hproc Hread Hpoll. split; [|split].
  - cbn [_read_output]. rewrite Hrun, Hproc.
    unfold _read_output_body. run_method. rewrite Hread. run_method.
    rewrite Hpoll. run_method.
    eexists. split; [reflexivity|]. new_events. trace_norm.
    repeat split; assumption.
  - intros w2 q Hq w3 evs. subst evs w3. unfold mainloop_step. rewrite Hq.
    run_method. new_events. trace_norm. rewrite status_history_app.
    repeat split.
    all: lazymatch goal with
       | |- count_events (logs_message _) _ = _ =>
           unfold count_events; cbn [filter logs_message];
           decide_endswith; reflexivity
       | |- _ => reflexivity
       end.
  - vm_compute. discriminate.
Qed.

Lemma unexpected_exit_witness :
  let w := Sample.started Sample.graceful in
  let w1 := relay_pass Sample.graceful w in
  let w3 := mainloop_step Sample.graceful w1 in
  running w = true
  /\ _read_output Sample.graceful 1 w = Some w1
  /\ process w3 = None
  /\ count_events (logs_message msg_ended) (events_since w1 w3) = 1.
Proof.
  intros w w1 w3.
  assert (Hrun : running w = true) by (vm_compute; reflexivity).
  assert (Hproc : process w = Some first_child) by (vm_compute; reflexivity).
  assert (Hread : readline_result Sample.graceful (ticks w) first_child
                  = inr []) by reflexivity.
  assert (Hpoll : poll_result Sample.graceful (S (ticks w)) first_child
                  = Some 0%Z) by reflexivity.
  destruct (@unexpected_exit Sample.graceful w first_child 0 0%Z
              Hrun Hproc Hread Hpoll) as ((w1' & Hloop & _) & Hcb & _).
  assert (Hq : after_queue w1 = [CbProcessEnded]) by (vm_compute; reflexivity).
  destruct (Hcb w1 [] Hq) as (Hp & _ & _ & _ & _ & Hcount & _).
  split; [exact Hrun|]. split; [vm_compute; reflexivity|].
  split; [exact Hp | exact Hcount].
Defined.

(** C7.  A read error in the relay ([readline()] raises [e]): the loop
    ends, having queued exactly one callback, which logs the failure;
    the relay itself calls nothing else and leaves handle, pid, running
    flag and status as they were.  When the main loop runs the callback,
    exactly one line is written to the log, with the error tag and the
    text of [e], and again handle, pid, running flag and status stay. *)
Theorem relay_read_error (env : Env) (w : App) (p : Popen) (fuel : nat)
    (e : Exn) :
  running w = true ->
  process w = Some p ->
  readline_result env (ticks w) p = inl e ->
  (exists w1,
      _read_output env (S fuel) w = Some w1
      /\ after_queue w1 = after_queue w ++ [CbLogError (str_of_exn e)]
      /\ events_since w w1 = [EvReadline p (inl e)]
      /\ process w1 = Some p /\ process_pid w1 = process_pid w
      /\ running w1 = true
      /\ status_history (trace w1) = status_history (trace w))
  /\ (forall w2 q,
        after_queue w2 = CbLogError (str_of_exn e) :: q ->
        let w3 := mainloop_step env w2 in
        let evs := events_since w2 w3 in
        (exists ts,
            evs = [EvClock ts;
                   EvLogInsert
                     (lit "[" ++ ts ++ lit "] [ERROR] "
                      ++ lit "读取输出错误: " ++ str_of_exn e ++ [10%N])
                     (lit "error")])
        /\ count_events is_error_line evs = 1
        /\ count_events is_log_insert evs = 1
        /\ after_queue w3 = q
        /\ process w3 = process w2 /\ process_pid w3 = process_pid w2
        /\ running w3 = running w2
        /\ status_history (trace w3) = status_history (trace w2)).
Proof.
  intros Hrun Hproc Hread. split.
  - cbn [_read_output]. rewrite Hrun, Hproc.
    unfold _read_output_body. run_method. rewrite Hread. run_method.
    eexists. split; [reflexivity|]. new_events. trace_norm.
    rewrite status_history_app. cbn [filter is_status_label map].
    rewrite app_nil_r. repeat split; assumption.
  - intros w2 q Hq w3 evs. subst evs w3. unfold mainloop_step. rewrite Hq.
    run_method. new_events. trace_norm. rewrite status_history_app.
    cbn [filter is_status_label map]. rewrite app_nil_r.
    split; [eexists; reflexivity|].
    unfold count_events. cbn [filter is_error_line is_log_insert].
    rewrite tag_error_is_error. repeat split.
Qed.

Lemma relay_read_error_witness :
  let w := Sample.started Sample.broken_pipe in
  let w1 := relay_pass Sample.broken_pipe w in
  let w3 := mainloop_step Sample.broken_pipe w1 in
  running w = true
  /\ _read_output Sample.broken_pipe 1 w = Some w1
  /\ count_events is_error_line (events_since w1 w3) = 1
  /\ process w3 = Some first_child.
Proof.
  intros w w1 w3.
  assert (Hrun : running w = true) by (vm_compute; reflexivity).
  assert (Hproc : process w = Some first_child) by (vm_compute; reflexivity).
  assert (Hread : readline_result Sample.broken_pipe (ticks w) first_child
                  = inl (PyException (lit "I/O operation on closed file")))
    by reflexivity.
  destruct (@relay_read_error Sample.broken_pipe w first_child 0 _
              Hrun Hproc Hread) as (_ & Hcb).
  assert (Hq : after_queue w1
               = [CbLogError (str_of_exn
                    (PyException (lit "I/O operation on closed file")))])
    by (vm_compute; reflexivity).
  destruct (Hcb w1 [] Hq) as (_ & Hcount & _ & _ & Hp & _).
  split; [exact Hrun|]. split; [vm_compute; reflexivity|].
  split; [exact Hcount|]. vm_compute. reflexivity.
Defined.

(* ===================================================================== *)
(** ** A second stop while one is under way *)
(* ===================================================================== *)

(** The state so described is one [stop_recording] passes through: the
    process is still set, and the call goes on from these events. *)
Lemma stop_in_flight_is_intermediate (env : Env) (w : App) (p : Popen) :
  process w = Some p ->
  let w1 := stop_in_flight env p w in
  process w1 = Some p /\ process_pid w1 = process_pid w
  /\ running w1 = running w
  /\ (exists res, In (EvTerminate p res) (events_since w w1))
  /\ exists rest,
       trace (exec (stop_recording env) w) = trace w1 ++ rest.
Proof.
  intros H w1. subst w1. unfold stop_in_flight.
  repeat split.
  1-3: run_method; destruct (terminate_result _ _ _); assumption || reflexivity.
  - run_method. destruct (terminate_result _ _ _) eqn:E.
    all: eexists; new_events; cbn [In]; do 5 right; left; reflexivity.
  - stop_paths H; trace_norm.
    all: rewrite ?Eterm; trace_norm.
    all: eexists; rewrite <- ?app_assoc; cbn [app]; do 6 f_equal.
Qed.

(** C8 (as the program has it).  [stop_recording] has one guard,
    [self.process is None].  Called while an earlier stop is under way
    (its terminate went out, the process is not yet cleared), it shows
    no warning and runs the sequence again: [terminate()] is sent to
    the same child once more, and [kill()] too if its own wait times
    out. *)
Theorem second_stop_reenters (env : Env) (w : App) (p : Popen)
    (res0 : option Exn) :
  process w = Some p ->
  In (EvTerminate p res0) (trace w) ->
  let evs := events_since w (exec (stop_recording env) w) in
  count_events is_show_warning evs = 0
  /\ count_events is_terminate evs = 1
  /\ (exists res, In (EvTerminate p res) evs)
  /\ (forall m, In (EvWait p 3 (inl (TimeoutExpired m))) evs ->
        count_events is_kill evs = 1).
Proof.
  intros H _ evs. subst evs.
  stop_paths H; new_events; trace_norm.
  all: split; [reflexivity|]. all: split; [reflexivity|].
  all: split; [eexists; cbn [In]; do 5 right; left; reflexivity|].
  all: intros m0 Hin; in_events Hin; reflexivity.
Qed.

Lemma second_stop_reenters_witness :
  let w := stop_in_flight Sample.stubborn first_child
             (Sample.started Sample.stubborn) in
  let evs := events_since w (exec (stop_recording Sample.stubborn) w) in
  process w = Some first_child
  /\ count_events is_terminate evs = 1
  /\ count_events is_kill evs = 1.
Proof.
  intros w evs.
  assert (Ha : process w = Some first_child) by (vm_compute; reflexivity).
  assert (Hb : In (EvTerminate first_child None) (trace w))
    by (vm_compute; tauto).
  destruct (@second_stop_reenters Sample.stubborn w first_child None Ha Hb)
    as (_ & Ht & _ & Hk).
  split; [exact Ha|]. split; [exact Ht|].
  apply (Hk (lit "Command timed out after 3 seconds")).
  vm_compute. tauto.
Defined.

(** C8, as stated, fails: with a stop under way, a second
    [stop_recording] is not refused; it sends [terminate()] again. *)
Lemma second_stop_is_not_refused :
  let w := stop_in_flight Sample.graceful first_child
             (Sample.started Sample.graceful) in
  let evs := events_since w (exec (stop_recording Sample.graceful) w) in
  process w = Some first_child
  /\ In (EvTerminate first_child None) (trace w)
  /\ count_events is_show_warning evs = 0
  /\ In (EvTerminate first_child None) evs.
Proof.
  vm_compute. repeat split; tauto.
Qed.

(* ===================================================================== *)
(** ** The interpreter that is launched *)
(* ===================================================================== *)

(** C9 (as the program has it).  On win32 the interpreter is the
    project's [venv/Scripts/python.exe] when that file exists and
    [sys.executable] otherwise; on every other platform it is
    [sys.executable], whether a project interpreter exists or not.  A
    [start_recording] without an active process makes exactly one
    [Popen] call, with this interpreter first and main.py second. *)
Theorem python_exe_resolution (env : Env) (w : App) :
  process w = None ->
  (sys_platform env = lit "win32" ->
   os_path_exists env (venv_python env) = true ->
   python_exe env = venv_python env)
  /\ (sys_platform env = lit "win32" ->
      os_path_exists env (venv_python env) = false ->
      python_exe env = sys_executable env)
  /\ (sys_platform env <> lit "win32" ->
      python_exe env = sys_executable env)
  /\ (let evs := events_since w (exec (start_recording env) w) in
      count_events is_popen evs = 1
      /\ exists res,
           In (EvPopen [python_exe env; main_py env] (script_dir env)
                 (preferred_encoding env) res) evs).
Proof.
  intros H. repeat split.
  - intros Hw He. unfold python_exe. fold (venv_python env).
    rewrite Hw, He. reflexivity.
  - intros Hw He. unfold python_exe. fold (venv_python env).
    rewrite Hw, He. reflexivity.
  - intros Hw. unfold python_exe.
    destruct (pystr_eqb (sys_platform env) (lit "win32")) eqn:E;
      [|reflexivity].
    apply pystr_eqb_eq in E. contradiction.
  - start_paths H; new_events; trace_norm; reflexivity.
  - start_paths H; new_events; trace_norm;
      eexists; cbn [In]; left; reflexivity.
Qed.

Lemma python_exe_resolution_witness :
  python_exe (Sample.windows true) = lit "C:\recorder\venv\Scripts\python.exe"
  /\ python_exe (Sample.windows false) = lit "C:\Python312\python.exe"
  /\ python_exe Sample.graceful = lit "/usr/bin/python3".
Proof.
  destruct (@python_exe_resolution (Sample.windows true) init eq_refl)
    as (Hv & _).
  destruct (@python_exe_resolution (Sample.windows false) init eq_refl)
    as (_ & Hs & _).
  destruct (@python_exe_resolution Sample.graceful init eq_refl)
    as (_ & _ & Hp & _).
  split; [|split].
  - rewrite Hv; reflexivity.
  - rewrite Hs; reflexivity.
  - rewrite Hp; [reflexivity | vm_compute; discriminate].
Defined.

(** C9, as stated, fails: on Linux, with the project's interpreter
    present, the interpreter launched is the ambient [sys.executable]. *)
Lemma posix_ignores_project_interpreter :
  let env := Sample.graceful in
  let evs := events_since init (exec (start_recording env) init) in
  os_path_exists env (venv_python env) = true
  /\ python_exe env = sys_executable env
  /\ python_exe env <> venv_python env
  /\ In (EvPopen [sys_executable env; main_py env] (script_dir env)
           (preferred_encoding env) (inr first_child)) evs.
Proof.
  vm_compute. repeat split; [discriminate | tauto].
Qed.

(* ===================================================================== *)
(** ** Handle, pid and running flag agree *)
(* ===================================================================== *)

Lemma consistent_init : consistent init.
Proof. right. repeat split. Qed.

Lemma consistent_cleared (w : App) :
  process w = None -> process_pid w = None -> running w = false ->
  consistent w.
Proof. intros. right. repeat split; assumption. Qed.

Lemma consistent_same (w w' : App) :
  process w' = process w -> process_pid w' = process_pid w ->
  running w' = running w -> consistent w -> consistent w'.
Proof.
  intros Hp Hn Hr [(p & n & H1 & H2 & H3)|(H1 & H2 & H3)].
  - left. exists p, n. rewrite Hp, Hn, Hr. repeat split; assumption.
  - right. rewrite Hp, Hn, Hr. repeat split; assumption.
Qed.

Lemma start_recording_consistent (env : Env) (w : App) :
  consistent w -> consistent (exec (start_recording env) w).
Proof.
  intros Hc. destruct (process w) as [p|] eqn:H.
  - unfold exec. rewrite (start_recording_rejected env w H).
    apply consistent_same with (w := w); [reflexivity ..| exact Hc].
  - start_paths H.
    + apply consistent_same with (w := w); [reflexivity ..| exact Hc].
    + left. eexists; eexists. repeat split.
Qed.

Lemma stop_recording_consistent (env : Env) (w : App) :
  consistent w -> consistent (exec (stop_recording env) w).
Proof.
  intros Hc. destruct (process w) as [p|] eqn:H.
  - stop_paths H.
    all: first [ apply consistent_cleared; reflexivity
               | apply consistent_same with (w := w); [reflexivity ..| exact Hc] ].
  - unfold exec. rewrite (stop_recording_rejected env w H).
    apply consistent_same with (w := w); [reflexivity ..| exact Hc].
Qed.

Lemma mainloop_step_consistent (env : Env) (w : App) :
  consistent w -> consistent (mainloop_step env w).
Proof.
  intros Hc. unfold mainloop_step.
  destruct (after_queue w) as [|[|l|m] q]; [exact Hc | ..]; run_method.
  - apply consistent_cleared; reflexivity.
  - apply consistent_same with (w := w); [reflexivity ..| exact Hc].
  - apply consistent_same with (w := w); [reflexivity ..| exact Hc].
Qed.

Lemma relay_pass_consistent (env : Env) (w : App) :
  consistent w -> consistent (relay_pass env w).
Proof.
  intros Hc. unfold relay_pass.
  destruct (running w); [|exact Hc].
  destruct (process w) as [p|]; [|exact Hc].
  unfold _read_output_body. run_method.
  destruct (readline_result _ _ _) as [e|[|c line]]; run_method.
  2: destruct (poll_result _ _ _); run_method.
  all: apply consistent_same with (w := w); [reflexivity ..| exact Hc].
Qed.

Lemma step_consistent (env : Env) (a : Action) (w : App) :
  consistent w -> consistent (step env a w).
Proof.
  intros Hc. destruct a; cbn [step].
  - apply start_recording_consistent, Hc.
  - apply stop_recording_consistent, Hc.
  - apply mainloop_step_consistent, Hc.
  - apply relay_pass_consistent, Hc.
  - apply consistent_same with (w := w); [reflexivity ..| exact Hc].
Qed.

(** C10.  In every state the application can reach (from [__init__],
    by start and stop calls, accepted, refused or failed, by the
    callbacks the main loop runs, among them [_process_ended], and by
    passes of the relay loop) the process handle, the stored pid and
    the running flag are all set or all cleared. *)
Theorem reachable_consistent (env : Env) (w : App) :
  reachable env w -> consistent w.
Proof.
  induction 1 as [|a w Hr IH].
  - apply consistent_init.
  - apply step_consistent, IH.
Qed.

Lemma reachable_run (env : Env) (acts : list Action) (w : App) :
  reachable env w -> reachable env (run env acts w).
Proof.
  revert w. induction acts as [|a acts IH]; intros w Hw; cbn.
  - exact Hw.
  - apply IH. apply reach_step. exact Hw.
Qed.

Lemma reachable_consistent_witness :
  consistent (run Sample.graceful [ActStart; ActStart; ActTrayUp] init)
  /\ consistent
       (run Sample.stubborn
            [ActStop; ActStart; ActRelay; ActStop; ActMainloop] init).
Proof.
  split.
  - apply reachable_consistent with (env := Sample.graceful).
    apply reachable_run, reach_init.
  - apply reachable_consistent with (env := Sample.stubborn).
    apply reachable_run, reach_init.
Defined.

(* ===================================================================== *)
(** ** Cleaning a line of output *)
(* ===================================================================== *)

Module AnsiFacts.
Import AnsiPattern.

Lemma sub_cons c t :
  sub (c :: t)
  = match match_at (c :: t) with
    | Some r => sub r
    | None => c :: sub t
    end.
Proof.
  simp sub.
  destruct (inspect (match_at (c :: t))) as [[r|] E]; simp sub;
    rewrite E; reflexivity.
Qed.

Lemma skip_params_split t :
  exists ps, forallb is_param ps = true /\ t = ps ++ skip_params t.
Proof.
  induction t as [|c t (ps & Hps & Ht)]; simpl.
  - exists []. split; reflexivity.
  - destruct (is_param c) eqn:E.
    + exists (c :: ps). simpl. rewrite E, Hps. split; [reflexivity|].
      f_equal. exact Ht.
    + exists []. split; reflexivity.
Qed.

Lemma skip_params_app ps c r :
  forallb is_param ps = true -> is_param c = false ->
  skip_params (ps ++ c :: r) = c :: r.
Proof.
  intros Hps Hc. induction ps as [|a ps IH]; simpl in *.
  - rewrite Hc. reflexivity.
  - apply andb_true_iff in Hps as [Ha Hps]. rewrite Ha. auto.
Qed.

Lemma match_at_Some s r :
  match_at s = Some r -> exists e, is_seq e /\ s = e ++ r.
Proof.
  unfold match_at.
  destruct s as [|c0 [|c1 t]]; try discriminate.
  destruct ((c0 =? ESC) && (c1 =? LBRACKET))%N eqn:E; try discriminate.
  apply andb_true_iff in E as [E0 E1].
  apply N.eqb_eq in E0, E1. subst c0 c1.
  destruct (skip_params_split t) as (ps & Hps & Ht).
  destruct (skip_params t) as [|c r'] eqn:Es; try discriminate.
  destruct (c =? LETTER_m)%N eqn:Ec; try discriminate.
  apply N.eqb_eq in Ec. subst c. intros [= <-].
  exists (ESC :: LBRACKET :: ps ++ [LETTER_m]). split.
  - exists ps. split; [exact Hps | reflexivity].
  - rewrite Ht at 1. simpl. rewrite <- app_assoc. reflexivity.
Qed.

Lemma match_at_None s :
  match_at s = None -> forall e rest, is_seq e -> s <> e ++ rest.
Proof.
  intros Hnone e rest (ps & Hps & ->) ->.
  revert Hnone. simpl. rewrite <- app_assoc. simpl.
  rewrite (skip_params_app ps LETTER_m rest Hps eq_refl).
  discriminate.
Qed.

Lemma sub_removed s : removed s (sub s).
Proof.
  remember (length s) as n eqn:Hn. revert s Hn.
  induction n as [n IH] using lt_wf_ind. intros s Hn.
  destruct s as [|c t].
  - simp sub. constructor.
  - rewrite sub_cons. destruct (match_at (c :: t)) as [r|] eqn:E.
    + pose proof (match_at_shorter _ E) as Hlt.
      destruct (match_at_Some _ E) as (e & He & Hs). rewrite Hs.
      apply removed_seq; [exact He|].
      apply (IH (length r)); [lia | reflexivity].
    + apply removed_keep; [apply match_at_None; exact E|].
      apply (IH (length t)); [simpl in Hn; lia | reflexivity].
Qed.

Lemma sub_without_esc s : ~ In ESC s -> sub s = s.
Proof.
  induction s as [|c t IH]; intros Hno.
  - simp sub. reflexivity.
  - rewrite sub_cons.
    assert (Hc : (c =? ESC)%N = false).
    { apply N.eqb_neq. intros ->. apply Hno. left. reflexivity. }
    unfold match_at. destruct t as [|c1 t'].
    + rewrite IH; [reflexivity | intros []].
    + rewrite Hc. cbn [andb]. rewrite IH; [reflexivity|].
      intros Hin. apply Hno. right. exact Hin.
Qed.

Lemma last_app_nonempty (l l' : pystr) (d : N) :
  l' <> [] -> last (l ++ l') d = last l' d.
Proof.
  intros Hne. induction l as [|a l IH]; [reflexivity|].
  simpl. destruct (l ++ l') eqn:E.
  - apply app_eq_nil in E as [_ E]. contradiction.
  - exact IH.
Qed.

(** Where the text does not end in a match, its last character is
    kept, and is the last character of the result. *)
Lemma sub_last s :
  s <> [] ->
  (exists pre e, s = pre ++ e /\ is_seq e)
  \/ (sub s <> [] /\ last (sub s) 0%N = last s 0%N).
Proof.
  remember (length s) as n eqn:Hn. revert s Hn.
  induction n as [n IH] using lt_wf_ind. intros s Hn Hs.
  destruct s as [|c t]; [contradiction|].
  rewrite sub_cons. destruct (match_at (c :: t)) as [r|] eqn:E.
  - pose proof (match_at_shorter _ E) as Hlt.
    destruct (match_at_Some _ E) as (e & He & Heq).
    destruct r as [|c' r'].
    + left. exists [], e. rewrite app_nil_r in Heq. split; assumption.
    + destruct (IH (length (c' :: r')) ltac:(lia) (c' :: r') eq_refl
                  ltac:(discriminate))
        as [(pre & e' & Hr & He')|(Hne & Hlast)].
      * left. exists (e ++ pre), e'. rewrite Heq, Hr, app_assoc.
        split; [reflexivity | exact He'].
      * right. split; [exact Hne|]. rewrite Hlast, Heq.
        symmetry. apply last_app_nonempty. discriminate.
  - destruct t as [|c' t'].
    + right. simp sub. split; [discriminate | reflexivity].
    + destruct (IH (length (c' :: t')) ltac:(simpl in *; lia) (c' :: t')
                  eq_refl ltac:(discriminate))
        as [(pre & e' & Hr & He')|(Hne & Hlast)].
      * left. exists (c :: pre), e'. rewrite Hr.
        split; [reflexivity | exact He'].
      * right. split; [discriminate|].
        destruct (sub (c' :: t')) as [|x l] eqn:Es; [contradiction|].
        exact Hlast.
Qed.

End AnsiFacts.

Lemma rstrip_split s :
  exists ws, s = rstrip s ++ ws /\ forallb isspace ws = true.
Proof.
  induction s as [|c s (ws & Hs & Hws)].
  - exists []. split; reflexivity.
  - change (rstrip (c :: s))
      with (match rstrip s with
            | [] => if isspace c then [] else [c]
            | _ :: _ => c :: rstrip s
            end).
    destruct (rstrip s) as [|x l] eqn:E.
    + destruct (isspace c) eqn:Ec.
      * exists (c :: ws). simpl. rewrite Ec, Hws.
        split; [f_equal; exact Hs | reflexivity].
      * exists ws. split; [simpl; f_equal; exact Hs | exact Hws].
    + exists ws. split; [simpl; f_equal; exact Hs | exact Hws].
Qed.

Lemma rstrip_no_trailing_space s : ends_with_space (rstrip s) = false.
Proof.
  induction s as [|c s IH]; [reflexivity|].
  change (rstrip (c :: s))
    with (match rstrip s with
          | [] => if isspace c then [] else [c]
          | _ :: _ => c :: rstrip s
          end).
  destruct (rstrip s) as [|x l] eqn:E.
  - destruct (isspace c) eqn:Ec; [reflexivity|]. simpl. exact Ec.
  - exact IH.
Qed.

(** C6 (as the program has it).  The line handed to the log is the raw
    line with its trailing whitespace cut off first and then, in a scan
    from the left, every match of ESC [ digits-and-semicolons m taken
    out and every other character kept.  It ends in whitespace only
    where the trimmed raw line ends in such a match; a raw line without
    ESC is delivered trimmed.  ["\x1b[31mERROR\x1b[0m"], with or without
    a newline, is delivered as ["ERROR"], with no ESC left. *)
Theorem clean_line_spec (line : pystr) :
  (exists ws, line = rstrip line ++ ws /\ forallb isspace ws = true)
  /\ ends_with_space (rstrip line) = false
  /\ AnsiPattern.removed (rstrip line) (clean_line line)
  /\ (ends_with_space (clean_line line) = true ->
      exists pre e, rstrip line = pre ++ e /\ AnsiPattern.is_seq e)
  /\ (~ In AnsiPattern.ESC line ->
      clean_line line = rstrip line
      /\ ends_with_space (clean_line line) = false)
  /\ clean_line raw_error_line = lit "ERROR"
  /\ clean_line (raw_error_line ++ [10%N]) = lit "ERROR"
  /\ ~ In AnsiPattern.ESC (clean_line raw_error_line).
Proof.
  split; [apply rstrip_split|].
  split; [apply rstrip_no_trailing_space|].
  split; [apply AnsiFacts.sub_removed|].
  split; [|split].
  - unfold clean_line. intros Hsp.
    pose proof (rstrip_no_trailing_space line) as Hr.
    destruct (rstrip line) as [|c t] eqn:E.
    + rewrite AnsiPattern.sub_equation_1 in Hsp. discriminate.
    + destruct (@AnsiFacts.sub_last (c :: t) ltac:(discriminate))
        as [Hseq|(Hne & Hlast)]; [exact Hseq|].
      exfalso. unfold ends_with_space in Hsp, Hr.
      destruct (AnsiPattern.sub (c :: t)) as [|x l]; [contradiction|].
      rewrite Hlast in Hsp. congruence.
  - intros Hno. unfold clean_line.
    assert (Hno' : ~ In AnsiPattern.ESC (rstrip line)).
    { intros Hin. apply Hno.
      destruct (rstrip_split line) as (ws & Hl & _).
      rewrite Hl. apply in_or_app. left. exact Hin. }
    rewrite (AnsiFacts.sub_without_esc _ Hno').
    split; [reflexivity | apply rstrip_no_trailing_space].
  - split; [reflexivity|]. split; [reflexivity|].
    vm_compute. intuition discriminate.
Qed.

(** C6, as stated, fails: a blank in front of a closing colour reset
    stays at the end of the delivered line, and taking a colour reset
    out of the middle of another one leaves an escape sequence. *)
Lemma clean_line_keeps_blank_before_reset :
  clean_line raw_blank_before_reset = lit "ERROR "
  /\ ends_with_space (clean_line raw_blank_before_reset) = true
  /\ clean_line raw_nested_reset = [27; 91; 48; 109]%N
  /\ In AnsiPattern.ESC (clean_line raw_nested_reset).
Proof.
  repeat split. vm_compute. tauto.
Qed.

(* ===================================================================== *)
(** ** Starting and stopping: success, failure, nothing in between *)
(* ===================================================================== *)

(** X1.  A [start_recording] without an active process whose [Popen]
    returns: the new process, its pid and the running flag are stored,
    [Popen] was called once with the interpreter, main.py, the script
    directory and the preferred encoding, the relay thread was started
    once, the status label shows Running and the status bar the pid,
    five lines were logged, none of them an error. *)
Theorem start_recording_success (env : Env) (w : App) (n : Z) :
  process w = None ->
  popen_result env (ticks w) [python_exe env; main_py env] = inr n ->
  let w' := exec (start_recording env) w in
  let evs := events_since w w' in
  let p := {| handle := ticks w; pid := n |} in
  process w' = Some p /\ process_pid w' = Some n /\ running w' = true
  /\ output_thread w' = Some (S (ticks w))
  /\ after_queue w' = after_queue w
  /\ count_events is_popen evs = 1
  /\ In (EvPopen [python_exe env; main_py env] (script_dir env)
           (preferred_encoding env) (inr p)) evs
  /\ count_events is_thread_start evs = 1
  /\ count_events is_log_insert evs = 5
  /\ count_events is_error_line evs = 0
  /\ count_events is_show_error evs = 0
  /\ (exists tray_status,
        filter is_status_var evs
        = [EvStatusVar
             (lit "状态：运行中 (PID: " ++ str_of_Z n
              ++ lit ") | 循环检测: 120秒 | 格式: ts → mp4 | 托盘: "
              ++ tray_status)])
  /\ status_history (trace w') = status_history (trace w) ++ [Some Running].
Proof.
  intros H Hp w' evs p. subst p evs w'.
  unfold start_recording; run_method; rewrite H; run_method.
  rewrite Hp. run_method. new_events. trace_norm.
  rewrite status_history_app.
  repeat split.
  - cbn [In]. left. reflexivity.
  - eexists. cbn [filter is_status_var pid]. reflexivity.
Qed.

Lemma start_recording_success_witness :
  let w' := exec (start_recording Sample.graceful) init in
  process w' = Some first_child /\ running w' = true
  /\ count_events is_thread_start (events_since init w') = 1.
Proof.
  destruct (@start_recording_success Sample.graceful init 4242%Z
              eq_refl eq_refl)
    as (Hp & _ & Hr & _ & _ & _ & _ & Ht & _).
  split; [exact Hp|]. split; [exact Hr | exact Ht].
Defined.

(** X2.  A [start_recording] whose [Popen] raises: handle, pid,
    running flag, relay thread, callback queue and status stay as they
    were; the failure is written to the log as one error line with the
    text of the exception and shown in an error dialog, and nothing
    else is called. *)
Theorem start_recording_failure (env : Env) (w : App) (e : Exn) :
  process w = None ->
  popen_result env (ticks w) [python_exe env; main_py env] = inl e ->
  let w' := exec (start_recording env) w in
  let evs := events_since w w' in
  process w' = None /\ process_pid w' = process_pid w
  /\ running w' = running w /\ output_thread w' = output_thread w
  /\ after_queue w' = after_queue w
  /\ evs = [EvPopen [python_exe env; main_py env] (script_dir env)
              (preferred_encoding env) (inl e);
            EvClock (clock env (S (ticks w)));
            EvLogInsert
              (lit "[" ++ clock env (S (ticks w)) ++ lit "] [ERROR] "
               ++ lit "启动录制失败: " ++ str_of_exn e ++ [10%N])
              (lit "error");
            EvShowError (lit "错误") (lit "启动录制失败: " ++ str_of_exn e)]
  /\ status_history (trace w') = status_history (trace w).
Proof.
  intros H Hp w' evs. subst evs w'.
  unfold start_recording; run_method; rewrite H; run_method.
  rewrite Hp. run_method. new_events. trace_norm.
  rewrite status_history_app. cbn [filter is_status_label map].
  rewrite app_nil_r. repeat split; assumption.
Qed.

Lemma start_recording_failure_witness :
  let w' := exec (start_recording env_spawn_fails) init in
  process w' = None /\ running w' = false
  /\ count_events is_show_error (events_since init w') = 1.
Proof.
  destruct (@start_recording_failure env_spawn_fails init _
              eq_refl eq_refl)
    as (Hp & _ & Hr & _ & _ & He & _).
  split; [exact Hp|]. split; [exact Hr|]. rewrite He. reflexivity.
Defined.

(** Close the facts about one path of [stop_recording]. *)
Ltac stop_facts :=
  repeat match goal with |- _ /\ _ => split end;
  try assumption;
  lazymatch goal with
  | |- count_events (logs_message _) _ = _ =>
      unfold count_events; cbn [filter logs_message];
      decide_endswith; reflexivity
  | |- count_events is_error_line _ = _ =>
      unfold count_events; cbn [filter is_error_line];
      decide_endswith; reflexivity
  | |- count_events _ _ = _ => reflexivity
  | |- _ ++ _ = _ ++ _ => reflexivity
  | |- _ ++ _ = _ => cbn [filter is_status_label map]; apply app_nil_r
  | |- _ => reflexivity
  end.

(** The two ways [stop_recording] on an active process can end. *)
Lemma stop_recording_outcomes (env : Env) (w : App) (p : Popen) :
  process w = Some p ->
  let w' := exec (stop_recording env) w in
  let evs := events_since w w' in
  count_events is_terminate evs = 1
  /\ ((process w' = None /\ process_pid w' = None /\ running w' = false
       /\ status_history (trace w') = status_history (trace w) ++ [Some Idle]
       /\ count_events is_show_error evs = 0
       /\ count_events is_error_line evs = 0
       /\ count_events (logs_message msg_stopped) evs = 1)
      \/ (process w' = Some p /\ process_pid w' = process_pid w
          /\ running w' = running w
          /\ status_history (trace w') = status_history (trace w)
          /\ count_events is_show_error evs = 1
          /\ count_events is_error_line evs = 1
          /\ count_events (logs_message msg_stopped) evs = 0))
  /\ output_thread w' = output_thread w
  /\ after_queue w' = after_queue w.
Proof.
  intros H w' evs. subst evs w'.
  stop_paths H; new_events; trace_norm; rewrite ?status_history_app.
  all: split; [reflexivity|]. all: split; [|split; reflexivity].
  all: first [ left; solve [stop_facts] | right; solve [stop_facts] ].
Qed.


(** X3.  A [stop_recording] on an active process sends [terminate()]
    exactly once and ends in one of two ways.  Either handle, pid and
    running flag are cleared, the status shows Idle and one
    "录制进程已停止" line is logged, without error line or dialog.  Or
    handle, pid, running flag and status are all as before, and the
    failure is reported by one error line and one error dialog.  The
    relay thread and the callback queue are not touched. *)
Theorem stop_recording_all_or_nothing (env : Env) (w : App) (p : Popen) :
  process w = Some p ->
  let w' := exec (stop_recording env) w in
  let evs := events_since w w' in
  count_events is_terminate evs = 1
  /\ ((process w' = None /\ process_pid w' = None /\ running w' = false
       /\ status_history (trace w') = status_history (trace w) ++ [Some Idle]
       /\ count_events is_show_error evs = 0
       /\ count_events is_error_line evs = 0
       /\ count_events (logs_message msg_stopped) evs = 1)
      \/ (process w' = Some p /\ process_pid w' = process_pid w
          /\ running w' = running w
          /\ status_history (trace w') = status_history (trace w)
          /\ count_events is_show_error evs = 1
          /\ count_events is_error_line evs = 1
          /\ count_events (logs_message msg_stopped) evs = 0))
  /\ output_thread w' = output_thread w
  /\ after_queue w' = after_queue w.
Proof.
  intros H. exact (@stop_recording_outcomes env w p H).
Qed.

Lemma stop_recording_all_or_nothing_witness :
  let w := Sample.started env_terminate_fails in
  let w' := exec (stop_recording env_terminate_fails) w in
  process w = Some first_child
  /\ count_events is_terminate (events_since w w') = 1
  /\ process w' = Some first_child.
Proof.
  intros w w'.
  assert (Ha : process w = Some first_child) by (vm_compute; reflexivity).
  destruct (@stop_recording_all_or_nothing env_terminate_fails w
              first_child Ha) as (Ht & _).
  split; [exact Ha|]. split; [exact Ht|]. vm_compute. reflexivity.
Defined.

(** X4.  When [terminate()] raises, [stop_recording] neither waits nor
    kills; when the wait raises something other than a timeout, it
    does not kill.  In both cases the process stays set and the error
    dialog carries the text of the exception. *)
Theorem stop_recording_signal_failures (env : Env) (w : App) (p : Popen) :
  process w = Some p ->
  let w' := exec (stop_recording env) w in
  let evs := events_since w w' in
  (forall e, In (EvTerminate p (Some e)) evs ->
     count_events is_wait evs = 0 /\ count_events is_kill evs = 0
     /\ process w' = Some p
     /\ In (EvShowError (lit "错误") (lit "停止录制失败: " ++ str_of_exn e))
           evs)
  /\ (forall m, In (EvWait p 3 (inl (PyException m))) evs ->
        count_events is_kill evs = 0
        /\ process w' = Some p
        /\ In (EvShowError (lit "错误") (lit "停止录制失败: " ++ m)) evs).
Proof.
  intros H w' evs. subst evs w'.
  stop_paths H; new_events; trace_norm.
  all: split; [intros e0 Hin | intros m0 Hin].
  all: in_events Hin; injection Hin as <-.
  all: repeat split; try assumption.
  all: cbn [In str_of_exn]; tauto.
Qed.

Lemma stop_recording_signal_failures_witness :
  let w := Sample.started env_terminate_fails in
  let w' := exec (stop_recording env_terminate_fails) w in
  process w = Some first_child
  /\ count_events is_wait (events_since w w') = 0
  /\ count_events is_kill (events_since w w') = 0.
Proof.
  intros w w'.
  assert (Ha : process w = Some first_child) by (vm_compute; reflexivity).
  destruct (@stop_recording_signal_failures env_terminate_fails w
              first_child Ha) as (Hterm & _).
  assert (Hin : In (EvTerminate first_child
                      (Some (PyException
                               (lit "[Errno 1] Operation not permitted"))))
                   (events_since w w')) by (vm_compute; tauto).
  destruct (Hterm _ Hin) as (Hw & Hk & _).
  split; [exact Ha|]. split; [exact Hw | exact Hk].
Defined.

(* ===================================================================== *)
(** ** The relay over a whole stream of output *)
(* ===================================================================== *)

Lemma relay_line_pass (env : Env) (w : App) (p : Popen) (c : N) (l : pystr) :
  readline_result env (ticks w) p = inr (c :: l) ->
  _read_output_body env p w
  = (Ok Continue,
     set_after_queue (after_queue w ++ [CbLog (clean_line (c :: l))])
       (answered (EvReadline p (inr (c :: l))) w)).
Proof.
  intros Hread. unfold _read_output_body. run_method. rewrite Hread.
  run_method. reflexivity.
Qed.

Lemma relay_eof_pass (env : Env) (w : App) (p : Popen) (rc : Z) :
  readline_result env (ticks w) p = inr [] ->
  poll_result env (S (ticks w)) p = Some rc ->
  _read_output_body env p w
  = (Ok Break,
     set_after_queue (after_queue w ++ [CbProcessEnded])
       (answered (EvPoll p (Some rc))
          (answered (EvReadline p (inr [])) w))).
Proof.
  intros Hread Hpoll. unfold _read_output_body. run_method. rewrite Hread.
  run_method. rewrite Hpoll. run_method. reflexivity.
Qed.

Lemma relay_stream_trace (env : Env) (lines : list pystr) :
  forall (w : App) (p : Popen) (rc : Z) (fuel : nat),
  running w = true ->
  process w = Some p ->
  Forall (fun l => l <> []) lines ->
  (forall i l, nth_error lines i = Some l ->
               readline_result env (ticks w + i) p = inr l) ->
  readline_result env (ticks w + length lines) p = inr [] ->
  poll_result env (S (ticks w + length lines)) p = Some rc ->
  exists w' evs,
    _read_output env (S (length lines + fuel)) w = Some w'
    /\ trace w' = trace w ++ evs
    /\ after_queue w'
       = after_queue w ++ map (fun l => CbLog (clean_line l)) lines
         ++ [CbProcessEnded]
    /\ count_events is_readline evs = S (length lines)
    /\ filter is_status_label evs = []
    /\ process w' = Some p /\ process_pid w' = process_pid w
    /\ running w' = true.
Proof.
  induction lines as [|l lines IH]; intros w p rc fuel Hrun Hproc Hne Hlines
    Heof Hpoll.
  - cbn [length Nat.add] in *. rewrite Nat.add_0_r in Heof, Hpoll.
    cbn [_read_output]. rewrite Hrun, Hproc.
    rewrite (relay_eof_pass env w p Heof Hpoll).
    eexists. exists [EvReadline p (inr []); EvPoll p (Some rc)].
    split; [reflexivity|]. cbn. rewrite <- app_assoc.
    repeat split; assumption.
  - destruct l as [|c l]; [inversion Hne as [|? ? Hl ?]; contradiction|].
    pose proof (Hlines 0 (c :: l) eq_refl) as Hread.
    rewrite Nat.add_0_r in Hread.
    change (S (length ((c :: l) :: lines) + fuel))
      with (S (S (length lines + fuel))).
    cbn [_read_output]. rewrite Hrun, Hproc.
    rewrite (relay_line_pass env w p Hread).
    set (w1 := set_after_queue _ _).
    destruct (IH w1 p rc fuel) as (w' & evs & Hloop & Htr & Hq & Hc & Hs & Hp & Hn & Hr).
    + exact Hrun.
    + exact Hproc.
    + inversion Hne; assumption.
    + intros i x Hi. subst w1. cbn [ticks set_after_queue answered].
      rewrite Nat.add_succ_comm. apply Hlines. exact Hi.
    + subst w1. cbn [ticks set_after_queue answered].
      cbn [length] in Heof. rewrite <- Nat.add_succ_comm in Heof.
      exact Heof.
    + subst w1. cbn [ticks set_after_queue answered].
      cbn [length] in Hpoll. rewrite <- Nat.add_succ_comm in Hpoll.
      exact Hpoll.
    + exists w', (EvReadline p (inr (c :: l)) :: evs).
      split; [exact Hloop|].
      subst w1. cbn [trace after_queue process_pid set_after_queue answered]
        in Htr, Hq, Hn.
      split; [rewrite Htr, <- app_assoc; reflexivity|].
      split; [rewrite Hq, <- app_assoc; reflexivity|].
      split; [unfold count_events in *; cbn; rewrite Hc; reflexivity|].
      split; [cbn; exact Hs|].
      repeat split; assumption.
Qed.

(** X5.  The child prints the non-empty lines [lines] and then ends
    (end of file, return code set).  The relay loop, started while the
    process is running, ends after one more pass than there are lines;
    it has queued one log callback per line, in order and with the line
    cleaned, and after them [_process_ended] once.  It has read the
    pipe once per pass and changed neither handle, pid, running flag
    nor status. *)
Theorem relay_delivers_stream (env : Env) (lines : list pystr) (w : App)
    (p : Popen) (rc : Z) (fuel : nat) :
  running w = true ->
  process w = Some p ->
  Forall (fun l => l <> []) lines ->
  (forall i l, nth_error lines i = Some l ->
               readline_result env (ticks w + i) p = inr l) ->
  readline_result env (ticks w + length lines) p = inr [] ->
  poll_result env (S (ticks w + length lines)) p = Some rc ->
  exists w',
    _read_output env (S (length lines + fuel)) w = Some w'
    /\ after_queue w'
       = after_queue w ++ map (fun l => CbLog (clean_line l)) lines
         ++ [CbProcessEnded]
    /\ count_events is_readline (events_since w w') = S (length lines)
    /\ process w' = Some p /\ process_pid w' = process_pid w
    /\ running w' = true
    /\ status_history (trace w') = status_history (trace w).
Proof.
  intros Hrun Hproc Hne Hlines Heof Hpoll.
  destruct (@relay_stream_trace env lines w p rc fuel Hrun Hproc Hne Hlines
              Heof Hpoll)
    as (w' & evs & Hloop & Htr & Hq & Hc & Hs & Hp & Hn & Hr).
  exists w'. rewrite (@events_since_app w w' evs Htr).
  repeat split; try assumption.
  rewrite Htr, status_history_app, Hs. cbn [map]. apply app_nil_r.
Qed.

Lemma relay_delivers_stream_witness :
  let env := env_prints 8 three_lines in
  let w := Sample.started env in
  exists w',
    _read_output env 4 w = Some w'
    /\ after_queue w'
       = [CbLog (lit "recording"); CbLog (lit "segment 1 saved");
          CbLog (lit "done"); CbProcessEnded].
Proof.
  intros env w.
  assert (Hrun : running w = true) by (vm_compute; reflexivity).
  assert (Hproc : process w = Some first_child) by (vm_compute; reflexivity).
  assert (Hne : Forall (fun l : pystr => l <> []) three_lines)
    by (repeat constructor; vm_compute; discriminate).
  assert (Hlines : forall i l, nth_error three_lines i = Some l ->
            readline_result env (ticks w + i) first_child = inr l).
  { intros [|[|[|i]]] l Hi; cbn in Hi; [| | | destruct i; discriminate].
    all: injection Hi as <-; vm_compute; reflexivity. }
  destruct (@relay_delivers_stream env three_lines w first_child 0%Z 0
              Hrun Hproc Hne Hlines eq_refl eq_refl)
    as (w' & Hloop & Hq & _).
  exists w'. split; [exact Hloop|]. rewrite Hq. vm_compute. reflexivity.
Defined.

Lemma mainloop_log_step (env : Env) (w : App) (l : pystr)
    (q : list Callback) :
  after_queue w = CbLog l :: q ->
  let w' := mainloop_step env w in
  trace w' = trace w ++ log_events env (ticks w) [l]
  /\ ticks w' = S (ticks w) /\ after_queue w' = q
  /\ process w' = process w /\ process_pid w' = process_pid w
  /\ running w' = running w /\ output_thread w' = output_thread w
  /\ system_tray w' = system_tray w.
Proof.
  intros Hq w'. subst w'. unfold mainloop_step. rewrite Hq.
  run_method. trace_norm. repeat split.
Qed.

Lemma drain_trace (env : Env) (ls : list pystr) :
  forall (q : list Callback) (w : App),
  after_queue w = map CbLog ls ++ q ->
  let w' := drain env (length ls) w in
  trace w' = trace w ++ log_events env (ticks w) ls
  /\ after_queue w' = q
  /\ process w' = process w /\ process_pid w' = process_pid w
  /\ running w' = running w /\ output_thread w' = output_thread w.
Proof.
  induction ls as [|l ls IH]; intros q w Hq.
  - cbn. rewrite app_nil_r. repeat split. exact Hq.
  - cbn [length drain].
    destruct (@mainloop_log_step env w l (map CbLog ls ++ q) Hq)
      as (Htr & Ht & Hq1 & Hp & Hn & Hr & Ho & _).
    destruct (IH q (mainloop_step env w) Hq1)
      as (Htr' & Hq' & Hp' & Hn' & Hr' & Ho').
    cbn zeta in *.
    rewrite Htr', Htr, Ht, <- app_assoc.
    repeat split; try congruence.
Qed.

(** X6.  The main loop runs the queued log callbacks in order: for a
    queue that begins with one callback per line of [ls], after as many
    steps the log view has received exactly those lines, each as
    "[time] line" with a newline and the normal tag, in the same order;
    the rest of the queue is left, and handle, pid, running flag and
    status are untouched. *)
Theorem drain_delivers_lines (env : Env) (ls : list pystr)
    (q : list Callback) (w : App) :
  after_queue w = map CbLog ls ++ q ->
  let w' := drain env (length ls) w in
  events_since w w' = log_events env (ticks w) ls
  /\ count_events is_log_insert (events_since w w') = length ls
  /\ after_queue w' = q
  /\ process w' = process w /\ process_pid w' = process_pid w
  /\ running w' = running w
  /\ status_history (trace w') = status_history (trace w).
Proof.
  intros Hq w'.
  destruct (@drain_trace env ls q w Hq) as (Htr & Hq' & Hp & Hn & Hr & _).
  fold w' in Htr, Hq', Hp, Hn, Hr.
  rewrite (@events_since_app w w' _ Htr).
  assert (Hcount : forall t, count_events is_log_insert (log_events env t ls)
                             = length ls).
  { clear. induction ls as [|l ls IH]; intros t; [reflexivity|].
    unfold count_events in *. cbn. rewrite IH. reflexivity. }
  assert (Hlabels : forall t, filter is_status_label (log_events env t ls) = []).
  { clear. induction ls as [|l ls IH]; intros t; [reflexivity|].
    cbn. apply IH. }
  repeat split; try assumption.
  - apply Hcount.
  - rewrite Htr, status_history_app, Hlabels. cbn [map]. apply app_nil_r.
Qed.

Lemma drain_delivers_lines_witness :
  let env := env_prints 8 three_lines in
  let w := relay_passes env 3 (Sample.started env) in
  let w' := drain env 3 w in
  after_queue w = map CbLog [lit "recording"; lit "segment 1 saved"; lit "done"]
                  ++ []
  /\ count_events is_log_insert (events_since w w') = 3
  /\ after_queue w' = [].
Proof.
  intros env w w'.
  assert (Hq : after_queue w
               = map CbLog [lit "recording"; lit "segment 1 saved"; lit "done"]
                 ++ []) by (vm_compute; reflexivity).
  destruct (@drain_delivers_lines env _ [] w Hq) as (_ & Hc & Hq' & _).
  split; [exact Hq|]. split; [exact Hc | exact Hq'].
Defined.

Lemma relay_silent_pass (env : Env) (w : App) (p : Popen) :
  running w = true -> process w = Some p ->
  readline_result env (ticks w) p = inr [] ->
  poll_result env (S (ticks w)) p = None ->
  _read_output_body env p w
  = (Ok Continue,
     answered (EvPoll p None) (answered (EvReadline p (inr [])) w)).
Proof.
  intros _ _ Hread Hpoll. unfold _read_output_body. run_method.
  rewrite Hread. run_method. rewrite Hpoll. run_method. reflexivity.
Qed.

(** X7.  While the child keeps its output at end of file and stays
    alive ([readline()] gives the empty string, [poll()] gives None),
    the relay loop does not end, however many passes it is given; each
    pass reads and polls once and queues nothing. *)
Theorem relay_spins_while_silent (env : Env) (w : App) (p : Popen) :
  running w = true ->
  process w = Some p ->
  (forall t, readline_result env t p = inr []) ->
  (forall t, poll_result env t p = None) ->
  (forall fuel, _read_output env fuel w = None)
  /\ (forall n,
        let w' := relay_passes env n w in
        after_queue w' = after_queue w
        /\ running w' = true /\ process w' = Some p
        /\ ticks w' = ticks w + 2 * n
        /\ length (trace w') = length (trace w) + 2 * n).
Proof.
  intros Hrun Hproc Hread Hpoll. split.
  - intros fuel. revert w Hrun Hproc.
    induction fuel as [|fuel IH]; intros w Hrun Hproc; [reflexivity|].
    cbn [_read_output]. rewrite Hrun, Hproc.
    rewrite (@relay_silent_pass env w p Hrun Hproc (Hread _) (Hpoll _)).
    apply IH; assumption.
  - induction n as [|n (Hq & Hr & Hp & Ht & Hl)].
    + cbn. repeat split; try assumption; lia.
    + cbn [relay_passes]. cbn zeta in *.
      set (w1 := relay_passes env n w) in *.
      unfold relay_pass. rewrite Hr, Hp.
      rewrite (@relay_silent_pass env w1 p Hr Hp (Hread _) (Hpoll _)).
      cbn [snd after_queue running process ticks trace answered].
      rewrite !length_app. cbn [length].
      repeat split; try assumption; lia.
Qed.

Lemma relay_spins_while_silent_witness :
  let w := Sample.started env_silent_alive in
  _read_output env_silent_alive 1000 w = None
  /\ after_queue (relay_passes env_silent_alive 5 w) = [].
Proof.
  intros w.
  assert (Hrun : running w = true) by (vm_compute; reflexivity).
  assert (Hproc : process w = Some first_child) by (vm_compute; reflexivity).
  destruct (@relay_spins_while_silent env_silent_alive w first_child
              Hrun Hproc (fun _ => eq_refl) (fun _ => eq_refl))
    as (Hloop & Hpass).
  split; [apply Hloop|].
  destruct (Hpass 5) as (Hq & _). rewrite Hq. vm_compute. reflexivity.
Defined.

(* ===================================================================== *)
(** ** The status bar goes with the status label *)
(* ===================================================================== *)















(* ===================================================================== *)
(** ** More on the cleaning of a line *)
(* ===================================================================== *)

Lemma rstrip_cons (c : N) (s : pystr) :
  rstrip (c :: s)
  = match rstrip s with
    | [] => if isspace c then [] else [c]
    | _ :: _ => c :: rstrip s
    end.
Proof. reflexivity. Qed.

Lemma rstrip_spaces (ws : pystr) : forallb isspace ws = true -> rstrip ws = [].
Proof.
  induction ws as [|c ws IH]; [reflexivity|]. cbn [forallb].
  intros H. apply andb_true_iff in H as [Hc Hws].
  rewrite rstrip_cons, (IH Hws), Hc. reflexivity.
Qed.

Lemma rstrip_app_spaces (s ws : pystr) :
  forallb isspace ws = true -> rstrip (s ++ ws) = rstrip s.
Proof.
  intros Hws. induction s as [|c s IH].
  - cbn [app]. apply rstrip_spaces, Hws.
  - cbn [app]. rewrite !rstrip_cons, IH. reflexivity.
Qed.

Lemma rstrip_fixed (s : pystr) : ends_with_space s = false -> rstrip s = s.
Proof.
  induction s as [|c s IH]; [reflexivity|]. intros H.
  rewrite rstrip_cons. destruct s as [|c' s'].
  - cbn in *. rewrite H. reflexivity.
  - rewrite IH by exact H. reflexivity.
Qed.

(** X9.  Whitespace at the end of the raw line does not reach the log:
    a line and the same line followed by any run of whitespace (a
    newline, a carriage return and a newline, blanks) are delivered
    alike; trimming twice is trimming once. *)
Theorem clean_line_ignores_trailing_whitespace (line ws : pystr) :
  forallb isspace ws = true ->
  clean_line (line ++ ws) = clean_line line
  /\ rstrip (line ++ ws) = rstrip line
  /\ rstrip (rstrip line) = rstrip line.
Proof.
  intros Hws. unfold clean_line.
  rewrite (@rstrip_app_spaces line ws Hws).
  repeat split. apply rstrip_fixed, rstrip_no_trailing_space.
Qed.

Lemma clean_line_ignores_trailing_whitespace_witness :
  clean_line (lit "saved" ++ [32; 13; 10]%N) = clean_line (lit "saved").
Proof.
  apply (@clean_line_ignores_trailing_whitespace (lit "saved")
           [32; 13; 10]%N).
  reflexivity.
Defined.

Module PieceFacts.
Import AnsiPattern.

Lemma match_at_seq (e s : pystr) : is_seq e -> match_at (e ++ s) = Some s.
Proof.
  intros (ps & Hps & ->). cbn [app match_at].
  rewrite !N.eqb_refl. cbn [andb]. rewrite <- app_assoc. cbn [app].
  rewrite (@AnsiFacts.skip_params_app ps LETTER_m s Hps eq_refl).
  rewrite N.eqb_refl. reflexivity.
Qed.

Lemma sub_seq_app (e s : pystr) : is_seq e -> sub (e ++ s) = sub s.
Proof.
  intros He. pose proof (@match_at_seq e s He) as Hm.
  destruct He as (ps & _ & ->). cbn [app] in *.
  rewrite AnsiFacts.sub_cons, Hm. reflexivity.
Qed.

Lemma sub_plain_app (t s : pystr) : ~ In ESC t -> sub (t ++ s) = t ++ sub s.
Proof.
  induction t as [|c t IH]; intros Hno; [reflexivity|].
  cbn [app]. rewrite AnsiFacts.sub_cons.
  assert (Hc : (c =? ESC)%N = false).
  { apply N.eqb_neq. intros ->. apply Hno. left. reflexivity. }
  assert (Hm : match_at (c :: t ++ s) = None).
  { unfold match_at. destruct (t ++ s); [reflexivity|].
    rewrite Hc. reflexivity. }
  rewrite Hm, IH; [reflexivity|].
  intros Hin. apply Hno. right. exact Hin.
Qed.

Lemma sub_flat (pieces : list Piece) :
  Forall well_formed pieces -> sub (flat pieces) = plain_text pieces.
Proof.
  induction 1 as [|x pieces Hx _ IH]; [reflexivity|].
  unfold flat, plain_text in *. cbn [map concat].
  destruct x as [t|e]; cbn [well_formed] in Hx.
  - rewrite (@sub_plain_app t _ Hx), IH. reflexivity.
  - rewrite (@sub_seq_app e _ Hx), IH. reflexivity.
Qed.

Lemma plain_text_without_esc (pieces : list Piece) :
  Forall well_formed pieces -> ~ In ESC (plain_text pieces).
Proof.
  induction 1 as [|x pieces Hx _ IH]; [intros []|].
  unfold plain_text in *. cbn [map concat]. intros Hin.
  apply in_app_or in Hin as [Hin|Hin]; [|exact (IH Hin)].
  destruct x as [t|e]; [exact (Hx Hin) | exact Hin].
Qed.

End PieceFacts.

(** X10.  A raw line made of plain text without ESC and of colour
    sequences, in any arrangement, followed by whitespace: if the
    coloured text itself does not end in whitespace, the line is
    delivered as its plain text alone, and no ESC is left in it. *)
Theorem clean_line_of_pieces (pieces : list Piece) (ws : pystr) :
  Forall well_formed pieces ->
  ends_with_space (flat pieces) = false ->
  forallb isspace ws = true ->
  clean_line (flat pieces ++ ws) = plain_text pieces
  /\ ~ In AnsiPattern.ESC (clean_line (flat pieces ++ ws)).
Proof.
  intros Hwf Hend Hws. unfold clean_line.
  rewrite (@rstrip_app_spaces _ ws Hws), (@rstrip_fixed _ Hend).
  rewrite (@PieceFacts.sub_flat _ Hwf).
  split; [reflexivity | apply PieceFacts.plain_text_without_esc, Hwf].
Qed.

Lemma clean_line_of_pieces_witness :
  clean_line
    (flat [Colour [27; 91; 49; 59; 51; 49; 109]%N; Plain (lit "ERROR");
           Colour [27; 91; 48; 109]%N; Plain (lit ": disk full");
           Colour [27; 91; 109]%N]
     ++ [13; 10]%N)
  = lit "ERROR: disk full".
Proof.
  refine (proj1 (@clean_line_of_pieces
           [Colour [27; 91; 49; 59; 51; 49; 109]%N; Plain (lit "ERROR");
            Colour [27; 91; 48; 109]%N; Plain (lit ": disk full");
            Colour [27; 91; 109]%N] [13; 10]%N _ eq_refl eq_refl)).
  repeat constructor; cbn [well_formed].
  - exists [49; 59; 51; 49]%N. split; reflexivity.
  - vm_compute. intuition discriminate.
  - exists [48]%N. split; reflexivity.
  - vm_compute. intuition discriminate.
  - exists []. split; reflexivity.
Defined.

(* ===================================================================== *)
(** ** Saving and loading the configuration files *)
(* ===================================================================== *)

Lemma rstrip_newlines_cons (c : N) (s : pystr) :
  rstrip_newlines (c :: s)
  = match rstrip_newlines s with
    | [] => if (c =? 10)%N then [] else [c]
    | _ :: _ => c :: rstrip_newlines s
    end.
Proof. reflexivity. Qed.

Lemma rstrip_newlines_split (s : pystr) :
  exists k, s = rstrip_newlines s ++ repeat 10%N k.
Proof.
  induction s as [|c s (k & Hs)].
  - exists 0. reflexivity.
  - rewrite rstrip_newlines_cons. destruct (rstrip_newlines s) as [|x l].
    + destruct (c =? 10)%N eqn:Ec.
      * apply N.eqb_eq in Ec. subst c. exists (S k). cbn. f_equal. exact Hs.
      * exists k. cbn. f_equal. exact Hs.
    + exists k. cbn. f_equal. exact Hs.
Qed.

Lemma rstrip_newlines_last (s : pystr) :
  rstrip_newlines s = []
  \/ exists body c, rstrip_newlines s = body ++ [c] /\ c <> 10%N.
Proof.
  induction s as [|c s IH]; [left; reflexivity|].
  rewrite rstrip_newlines_cons.
  destruct (rstrip_newlines s) as [|x l] eqn:E.
  - destruct (c =? 10)%N eqn:Ec; [left; reflexivity|].
    right. exists [], c. split; [reflexivity|]. apply N.eqb_neq, Ec.
  - right. destruct IH as [IH|(body & d & Hb & Hd)]; [discriminate|].
    exists (c :: body), d. rewrite Hb. split; [reflexivity | exact Hd].
Qed.

Lemma rstrip_newlines_keeps (s t : pystr) :
  rstrip_newlines t <> [] ->
  rstrip_newlines (s ++ t) = s ++ rstrip_newlines t.
Proof.
  intros Hne. induction s as [|b s IH]; [reflexivity|].
  change ((b :: s) ++ t) with (b :: (s ++ t)).
  rewrite rstrip_newlines_cons, IH.
  destruct (s ++ rstrip_newlines t) eqn:E.
  - apply app_eq_nil in E as [_ E]. contradiction.
  - cbn [app]. rewrite E. reflexivity.
Qed.

Lemma rstrip_newlines_app (body : pystr) (c : N) (k : nat) :
  c <> 10%N -> rstrip_newlines ((body ++ [c]) ++ repeat 10%N k) = body ++ [c].
Proof.
  intros Hc.
  assert (Hnl : forall k, rstrip_newlines (repeat 10%N k) = []).
  { clear. induction k as [|k IH]; [reflexivity|].
    cbn [repeat]. rewrite rstrip_newlines_cons, IH. reflexivity. }
  assert (Hone : rstrip_newlines ([c] ++ repeat 10%N k) = [c]).
  { cbn [app]. rewrite rstrip_newlines_cons, Hnl.
    apply N.eqb_neq in Hc. rewrite Hc. reflexivity. }
  rewrite <- app_assoc, rstrip_newlines_keeps, Hone; [reflexivity|].
  rewrite Hone. discriminate.
Qed.

Lemma endswith_last (body : pystr) (c d : N) :
  endswith (body ++ [c]) [d] = (d =? c)%N.
Proof.
  unfold endswith. rewrite rev_app_distr. cbn [rev app startswith].
  apply andb_true_r.
Qed.

Lemma content_to_write_cases (got : pystr) :
  (rstrip_newlines got = [] /\ content_to_write got = [])
  \/ exists body c,
       rstrip_newlines got = body ++ [c] /\ c <> 10%N
       /\ content_to_write got = body ++ [c; 10%N].
Proof.
  unfold content_to_write.
  destruct (rstrip_newlines_last got) as [E|(body & c & E & Hc)]; rewrite E.
  - left. split; reflexivity.
  - right. exists body, c. split; [reflexivity|]. split; [exact Hc|].
    rewrite endswith_last.
    assert (Hn : (10 =? c)%N = false) by (apply N.eqb_neq; congruence).
    rewrite Hn. destruct body; cbn; rewrite <- ?app_assoc; reflexivity.
Qed.

Lemma content_to_write_shape (text : pystr) :
  let out := content_to_write (text_get text) in
  (exists k, text_get text = rstrip_newlines text ++ repeat 10%N (S k))
  /\ out = match rstrip_newlines text with
           | [] => []
           | _ :: _ => rstrip_newlines text ++ [10%N]
           end
  /\ (out = []
      \/ exists body c, out = body ++ [c; 10%N] /\ c <> 10%N)
  /\ endswith out [10; 10]%N = false.
Proof.
  intros out. subst out. unfold text_get.
  destruct (rstrip_newlines_split text) as (k & Hk).
  assert (Hsame : rstrip_newlines (text ++ [10%N]) = rstrip_newlines text).
  { destruct (rstrip_newlines_last text) as [E|(body & c & E & Hc)].
    - rewrite E in *. cbn [app] in Hk. rewrite Hk.
      change (repeat 10%N k ++ [10%N]) with (repeat 10%N k ++ repeat 10%N 1).
      rewrite <- repeat_app.
      clear. induction (k + 1) as [|n IH]; [reflexivity|].
      cbn [repeat]. rewrite rstrip_newlines_cons, IH. reflexivity.
    - rewrite E in *. rewrite Hk at 1. rewrite <- app_assoc.
      change (repeat 10%N k ++ [10%N]) with (repeat 10%N k ++ repeat 10%N 1).
      rewrite <- repeat_app. apply rstrip_newlines_app, Hc. }
  split.
  - exists k. rewrite Hk at 1. rewrite <- app_assoc. f_equal.
    change [10%N] with (repeat 10%N 1) at 1.
    rewrite <- repeat_app. f_equal. lia.
  - destruct (@content_to_write_cases (text ++ [10%N]))
      as [(E & Hout)|(body & c & E & Hc & Hout)];
      rewrite Hsame in E; rewrite Hout, E.
    + repeat split. left. reflexivity.
    + split; [destruct body; cbn; rewrite <- ?app_assoc; reflexivity|].
      split; [right; exists body, c; split; [reflexivity | exact Hc]|].
      unfold endswith. rewrite rev_app_distr. cbn [rev app startswith].
      assert (Hn : (10 =? c)%N = false) by (apply N.eqb_neq; congruence).
      rewrite Hn, andb_false_r. reflexivity.
Qed.


Lemma content_to_write_stable (text : pystr) :
  content_to_write (text_get (content_to_write (text_get text)))
  = content_to_write (text_get text).
Proof.
  destruct (content_to_write_shape text) as (_ & _ & [E|(body & c & E & Hc)] & _).
  - rewrite E. reflexivity.
  - rewrite E.
    destruct (content_to_write_shape (body ++ [c; 10%N])) as (_ & Hout & _).
    rewrite Hout.
    assert (Hr : rstrip_newlines (body ++ [c; 10%N]) = body ++ [c]).
    { change (body ++ [c; 10%N]) with (body ++ [c] ++ repeat 10%N 1).
      rewrite app_assoc. apply rstrip_newlines_app, Hc. }
    rewrite Hr. destruct body; cbn; rewrite <- ?app_assoc; reflexivity.
Qed.

(** X11.  What [save_config] writes, in both windows, is the text of
    the editor with its trailing newlines replaced: nothing at all when
    the text holds only newlines, else the text up to its last
    character that is no newline, followed by exactly one newline.
    The test [not content.endswith('\n')] never fails. *)
Theorem content_to_write_spec (text : pystr) :
  let out := content_to_write (text_get text) in
  (exists k, text_get text = rstrip_newlines text ++ repeat 10%N (S k))
  /\ out = match rstrip_newlines text with
           | [] => []
           | _ :: _ => rstrip_newlines text ++ [10%N]
           end
  /\ (out = []
      \/ exists body c, out = body ++ [c; 10%N] /\ c <> 10%N)
  /\ endswith out [10; 10]%N = false.
Proof. exact (content_to_write_shape text). Qed.

(** *** Line ends in the file *)

Lemma write_newlines_lf (s : pystr) : write_newlines [10%N] s = s.
Proof.
  unfold write_newlines. induction s as [|c s IH]; [reflexivity|].
  cbn [flat_map]. rewrite IH.
  destruct (c =? 10)%N eqn:E; [|reflexivity].
  apply N.eqb_eq in E. subst c. reflexivity.
Qed.

Lemma universal_newlines_plain (s : pystr) :
  ~ In 13%N s -> universal_newlines s = s.
Proof.
  induction s as [|c s IH]; intros H; [reflexivity|].
  cbn [universal_newlines].
  destruct (c =? 13)%N eqn:E.
  - apply N.eqb_eq in E. subst c. exfalso. apply H. left. reflexivity.
  - rewrite IH; [reflexivity|]. intros Hin. apply H. right. exact Hin.
Qed.

Lemma universal_newlines_no_cr (s : pystr) :
  ~ In 13%N (universal_newlines s).
Proof.
  assert (H : forall n s, length s <= n -> ~ In 13%N (universal_newlines s)).
  { clear s. induction n as [|n IH]; intros [|c s] Hl; cbn [length] in Hl;
      try lia; cbn [universal_newlines]; try (intros []).
    destruct (c =? 13)%N eqn:E.
    - destruct s as [|d s'].
      + intros [Hx|[]]. discriminate Hx.
      + cbn [length] in Hl.
        destruct (d =? 10)%N; intros [Hx|Hx]; try discriminate Hx;
          revert Hx; apply IH; cbn [length]; lia.
    - intros [Hx|Hx].
      + subst c. discriminate E.
      + revert Hx. apply IH. lia. }
  apply (H (length s)). lia.
Qed.

(** What was written is read back as it was handed to [f.write], if it
    holds no carriage return. *)
Lemma read_back (env : Env) (s : pystr) :
  ~ In 13%N s ->
  universal_newlines (write_newlines (os_linesep env) s) = s.
Proof.
  intros H. unfold os_linesep.
  destruct (pystr_eqb (sys_platform env) (lit "win32")).
  - induction s as [|c s IH]; [reflexivity|].
    unfold write_newlines in *. cbn [flat_map].
    assert (Hs : ~ In 13%N s) by (intros Hin; apply H; right; exact Hin).
    destruct (c =? 10)%N eqn:E.
    + apply N.eqb_eq in E. subst c. cbn [app universal_newlines N.eqb Pos.eqb].
      rewrite IH by exact Hs. reflexivity.
    + cbn [app universal_newlines].
      destruct (c =? 13)%N eqn:E'.
      * apply N.eqb_eq in E'. subst c. exfalso. apply H. left. reflexivity.
      * rewrite IH by exact Hs. reflexivity.
  - rewrite write_newlines_lf. apply universal_newlines_plain, H.
Qed.

Lemma rstrip_newlines_incl (x : N) (s : pystr) :
  In x (rstrip_newlines s) -> In x s.
Proof.
  intros H. destruct (rstrip_newlines_split s) as (k & Hk).
  rewrite Hk. apply in_or_app. left. exact H.
Qed.

Lemma content_to_write_no_cr (text : pystr) :
  ~ In 13%N text -> ~ In 13%N (content_to_write (text_get text)).
Proof.
  intros H.
  destruct (content_to_write_shape text) as (_ & Hout & _).
  cbv zeta in Hout. rewrite Hout.
  destruct (rstrip_newlines text) as [|c r] eqn:E; [intros []|].
  rewrite <- E. intros Hin. apply in_app_or in Hin as [Hin|Hin].
  - apply H. apply rstrip_newlines_incl. exact Hin.
  - destruct Hin as [Hin|[]]. discriminate Hin.
Qed.

(** X12.  Saving the URL configuration, loading it again and saving
    once more, on a file system that does not fail.  The first save
    stores what it hands to [f.write], every "\n" written as
    [os.linesep].  The load does not change the file; the editor then
    shows the file as the text layer reads it, which holds no carriage
    return.  If the text of the editor held no carriage return to begin
    with, the editor shows after the load exactly what the first save
    handed to [f.write], and the second save leaves the file as the
    first one wrote it, on every platform.  Each save has shown the
    success message once and no error line is logged. *)
Theorem save_load_save_is_stable (env : Env) (fs : FsEnv) (g : Editor) :
  (forall content, write_result fs (ed_path g) content = None) ->
  read_result fs (ed_path g) = None ->
  let saved := content_to_write (text_get (ed_text g)) in
  let g1 := gui_save_config env fs g in
  let g2 := gui_load_config env fs g1 in
  let g3 := gui_save_config env fs g2 in
  ed_file g1 = Some (write_newlines (os_linesep env) saved)
  /\ ed_file g2 = ed_file g1
  /\ ed_text g2
     = universal_newlines (write_newlines (os_linesep env) saved)
  /\ ~ In 13%N (ed_text g2)
  /\ (~ In 13%N (ed_text g) ->
      ed_text g2 = saved /\ ed_file g3 = ed_file g1)
  /\ length (filter is_fc_show_info (ed_calls g3))
     = 2 + length (filter is_fc_show_info (ed_calls g))
  /\ count_events is_error_line (events_since (ed_app g) (ed_app g3)) = 0.
Proof.
  intros Hw Hr saved g1 g2 g3.
  assert (E1 : g1 = ed_update
                     (exec (_log env (lit "URL 配置已保存") info) (ed_app g))
                     (ed_text g)
                     (Some (write_newlines (os_linesep env) saved))
                     (ed_window g)
                     [FcWrite (ed_path g) saved None;
                      FcShowInfo (lit "成功") (lit "URL 配置已保存成功！")] g).
  { subst g1 saved. unfold gui_save_config. rewrite Hw. reflexivity. }
  assert (Hp1 : ed_path g1 = ed_path g) by (rewrite E1; reflexivity).
  assert (E2 : ed_file g2 = ed_file g1
               /\ ed_text g2
                  = universal_newlines
                      (write_newlines (os_linesep env) saved)
               /\ ed_path g2 = ed_path g
               /\ ed_calls g2
                  = ed_calls g1
                    ++ [FcMakedirs (os_path_dirname fs (ed_path g));
                        FcRead (ed_path g) None]
               /\ ed_app g2
                  = exec (_log env (lit "配置文件已加载") info) (ed_app g1)).
  { subst g2. unfold gui_load_config. rewrite Hp1, Hr, E1.
    cbn [ed_text ed_file ed_calls ed_app ed_path ed_window ed_update app].
    repeat split. }
  destruct E2 as (Hf2 & Ht2 & Hp2 & Hc2 & Ha2).
  assert (E3 : ed_file g3
               = Some (write_newlines (os_linesep env)
                         (content_to_write (text_get (ed_text g2))))
               /\ ed_calls g3
                  = ed_calls g2
                    ++ [FcWrite (ed_path g2)
                          (content_to_write (text_get (ed_text g2))) None;
                        FcShowInfo (lit "成功") (lit "URL 配置已保存成功！")]
               /\ ed_app g3
                  = exec (_log env (lit "URL 配置已保存") info) (ed_app g2)).
  { subst g3. unfold gui_save_config. rewrite Hp2, Hw.
    cbn [ed_text ed_file ed_calls ed_app ed_path ed_window ed_update].
    repeat split. }
  destruct E3 as (Hf3 & Hc3 & Ha3).
  split; [rewrite E1; reflexivity|].
  split; [exact Hf2|]. split; [exact Ht2|].
  split; [rewrite Ht2; apply universal_newlines_no_cr|].
  split.
  - intros Hcr.
    assert (Hback : ed_text g2 = saved).
    { rewrite Ht2. apply read_back. apply content_to_write_no_cr, Hcr. }
    split; [exact Hback|].
    rewrite Hf3, Hback. unfold saved at 1.
    rewrite content_to_write_stable, E1. reflexivity.
  - split.
    + rewrite Hc3, Hc2, E1. cbn [ed_calls ed_update].
      rewrite !filter_app, !length_app. cbn. lia.
    + rewrite Ha3, Ha2, E1. cbn [ed_app ed_update].
      run_method. new_events. unfold count_events.
      cbn [filter is_error_line]. rewrite ?tag_normal_is_not_error.
      reflexivity.
Qed.

Lemma save_load_save_is_stable_witness :
  let env := Sample.windows true in
  let g := editor_on (lit "https://live.example/1" ++ [10; 10; 10]%N) None in
  let g1 := gui_save_config env fs_fine g in
  let g2 := gui_load_config env fs_fine g1 in
  let g3 := gui_save_config env fs_fine g2 in
  ed_file g1 = Some (lit "https://live.example/1" ++ [13; 10]%N)
  /\ ed_text g2 = lit "https://live.example/1" ++ [10%N]
  /\ ed_file g3 = ed_file g1.
Proof.
  intros env g g1 g2 g3.
  destruct (@save_load_save_is_stable env fs_fine g
              (fun _ => eq_refl) eq_refl) as (H1 & _ & _ & _ & H3 & _).
  assert (Hcr : ~ In 13%N (ed_text g)).
  { vm_compute. intros H.
    repeat (destruct H as [H|H]; [discriminate H|]). exact H. }
  destruct (H3 Hcr) as (Ht & Hf).
  fold g1 in H1. fold g1 g2 in Ht. fold g1 g2 g3 in Hf.
  split; [rewrite H1; vm_compute; reflexivity|].
  split; [rewrite Ht; vm_compute; reflexivity | exact Hf].
Defined.

(** X13.  A save of the URL configuration that fails in writing keeps
    the text of the editor, shows no success message and logs no
    "saved" line; the failure is reported by exactly one error line
    and one error dialog with the text of the exception, and the
    supervised process is not touched. *)
Theorem failed_save_is_reported (env : Env) (fs : FsEnv) (g : Editor)
    (e : Exn) (left : option pystr) :
  write_result fs (ed_path g) (content_to_write (text_get (ed_text g)))
  = Some (e, left) ->
  let g' := gui_save_config env fs g in
  let evs := events_since (ed_app g) (ed_app g') in
  ed_text g' = ed_text g
  /\ ed_file g' = left
  /\ filter is_fc_show_info (ed_calls g')
     = filter is_fc_show_info (ed_calls g)
  /\ evs = [EvClock (clock env (ticks (ed_app g)));
            EvLogInsert
              (lit "[" ++ clock env (ticks (ed_app g)) ++ lit "] [ERROR] "
               ++ lit "保存配置文件失败: " ++ str_of_exn e ++ [10%N])
              (lit "error");
            EvShowError (lit "错误")
              (lit "保存配置文件失败: " ++ str_of_exn e)]
  /\ process (ed_app g') = process (ed_app g)
  /\ process_pid (ed_app g') = process_pid (ed_app g)
  /\ running (ed_app g') = running (ed_app g).
Proof.
  intros Hw g' evs. subst evs g'. unfold gui_save_config. rewrite Hw.
  cbn [ed_text ed_file ed_calls ed_app ed_update].
  rewrite filter_app. cbn [filter is_fc_show_info]. rewrite app_nil_r.
  run_method. new_events. repeat split.
Qed.

Lemma failed_save_is_reported_witness :
  let g := editor_on (lit "https://live.example/1") (Some (lit "old")) in
  let g' := gui_save_config Sample.graceful
              (fs_read_only (Some (lit "old"))) g in
  ed_text g' = lit "https://live.example/1"
  /\ ed_file g' = Some (lit "old")
  /\ filter is_fc_show_info (ed_calls g') = [].
Proof.
  intros g g'.
  destruct (@failed_save_is_reported Sample.graceful
              (fs_read_only (Some (lit "old"))) g _ _ eq_refl)
    as (Ht & Hf & Hi & _).
  fold g' in Ht, Hf, Hi.
  split; [rewrite Ht; reflexivity|].
  split; [rewrite Hf; reflexivity | rewrite Hi; reflexivity].
Defined.

(** X14.  [_load_config] of the main window, when the read does not
    fail: a missing file is created empty and the editor is emptied;
    an existing file is not written, and the editor shows it as the
    text layer reads it, "\r\n" and a single "\r" read as "\n": the
    text shown holds no carriage return, and it is the text of the
    file when the file holds none.  In both cases one "配置文件已加载"
    line is logged.  When the read fails, the editor keeps its text and
    one error line is logged. *)
Theorem gui_load_config_cases (env : Env) (fs : FsEnv) (g : Editor) :
  let g' := gui_load_config env fs g in
  let evs := events_since (ed_app g) (ed_app g') in
  (read_result fs (ed_path g) = None ->
     (ed_file g = None ->
        ed_file g' = Some [] /\ ed_text g' = []
        /\ filter is_fc_write (skipn (length (ed_calls g)) (ed_calls g'))
           = [FcWrite (ed_path g) [] None])
     /\ (forall stored, ed_file g = Some stored ->
           ed_file g' = Some stored
           /\ ed_text g' = universal_newlines stored
           /\ ~ In 13%N (ed_text g')
           /\ (~ In 13%N stored -> ed_text g' = stored)
           /\ filter is_fc_write (skipn (length (ed_calls g)) (ed_calls g'))
              = [])
     /\ count_events (logs_message (lit "配置文件已加载")) evs = 1
     /\ count_events is_error_line evs = 0)
  /\ (forall e, read_result fs (ed_path g) = Some e ->
        ed_text g' = ed_text g
        /\ count_events is_error_line evs = 1
        /\ count_events (logs_message (lit "配置文件已加载")) evs = 0).
Proof.
  intros g' evs. subst evs g'. unfold gui_load_config. split.
  - intros Hr. rewrite Hr.
    cbn [ed_text ed_file ed_calls ed_app ed_update].
    rewrite skipn_length_app. run_method. new_events.
    split; [intros Hf; rewrite Hf; repeat split|].
    split.
    + intros stored Hf. rewrite Hf.
      split; [reflexivity|]. split; [reflexivity|].
      split; [apply universal_newlines_no_cr|].
      split; [apply universal_newlines_plain | reflexivity].
    + unfold count_events. cbn [filter logs_message is_error_line].
      decide_endswith. split; reflexivity.
  - intros e Hr. rewrite Hr.
    cbn [ed_text ed_file ed_calls ed_app ed_update].
    run_method. new_events.
    unfold count_events. cbn [filter logs_message is_error_line].
    decide_endswith. repeat split.
Qed.

Lemma gui_load_config_cases_witness :
  let stored := (lit "a" ++ [13; 10] ++ lit "b" ++ [13] ++ lit "c"
                 ++ [13; 10])%N in
  let g' := gui_load_config Sample.graceful fs_fine
              (editor_on (lit "old") (Some stored)) in
  ed_file g' = Some stored
  /\ ed_text g' = (lit "a" ++ [10] ++ lit "b" ++ [10] ++ lit "c" ++ [10])%N.
Proof.
  intros stored g'.
  destruct (@gui_load_config_cases Sample.graceful fs_fine
              (editor_on (lit "old") (Some stored)))
    as ((_ & Hshown & _) & _); [reflexivity|].
  destruct (Hshown stored eq_refl) as (Hf & Ht & _).
  fold g' in Hf, Ht.
  split; [exact Hf|]. rewrite Ht. vm_compute. reflexivity.
Defined.

(** X15.  The advanced settings window opened on a missing config.ini
    shows the placeholder "# 配置文件不存在，请新建"; a save from there
    that succeeds hands the placeholder and a newline to [f.write], so
    that the file is created with the placeholder and one line end
    ([os.linesep]) as its content, logs "高级设置配置已保存" once and
    closes the window. *)
Theorem advanced_save_of_missing_file (env : Env) (fs : FsEnv) (g : Editor) :
  ed_file g = None ->
  write_result fs (ed_path g) (missing_file_text ++ [10%N]) = None ->
  let g1 := adv_load_config fs g in
  let g2 := adv_save_config env fs g1 in
  ed_text g1 = missing_file_text
  /\ ed_file g1 = None
  /\ ed_file g2 = Some (missing_file_text ++ os_linesep env)
  /\ (sys_platform env <> lit "win32" ->
      ed_file g2 = Some (missing_file_text ++ [10%N]))
  /\ skipn (length (ed_calls g)) (ed_calls g2)
     = [FcWrite (ed_path g) (missing_file_text ++ [10%N]) None;
        FcShowInfo (lit "成功") (lit "配置文件已保存！");
        FcDestroy]
  /\ ed_window g2 = false
  /\ count_events (logs_message (lit "高级设置配置已保存"))
       (events_since (ed_app g) (ed_app g2)) = 1.
Proof.
  intros Hf Hw g1 g2. subst g2 g1. unfold adv_load_config. rewrite Hf.
  unfold adv_save_config.
  cbn [ed_text ed_file ed_calls ed_app ed_path ed_window ed_update].
  assert (Hc : content_to_write (text_get missing_file_text)
               = missing_file_text ++ [10%N]) by (vm_compute; reflexivity).
  assert (Hn : forall ls, write_newlines ls (missing_file_text ++ [10%N])
                          = missing_file_text ++ ls).
  { intros ls. unfold write_newlines. rewrite flat_map_app.
    cbn [flat_map N.eqb Pos.eqb]. rewrite app_nil_r. f_equal. }
  rewrite Hc, Hw.
  cbn [ed_text ed_file ed_calls ed_app ed_path ed_window ed_update].
  rewrite Hn, app_nil_r, skipn_length_app.
  run_method. new_events.
  unfold count_events. cbn [filter logs_message]. decide_endswith.
  repeat split.
  intros Hp. unfold os_linesep.
  destruct (pystr_eqb (sys_platform env) (lit "win32")) eqn:E;
    [|reflexivity].
  apply pystr_eqb_eq in E. contradiction.
Qed.

Lemma advanced_save_of_missing_file_witness :
  let g := editor_on [] None in
  let g2 := adv_save_config Sample.graceful fs_fine
              (adv_load_config fs_fine g) in
  ed_file g2 = Some (lit "# 配置文件不存在，请新建" ++ [10%N])
  /\ ed_window g2 = false.
Proof.
  intros g g2.
  destruct (@advanced_save_of_missing_file Sample.graceful fs_fine g
              eq_refl eq_refl) as (_ & _ & Hf & _ & _ & Hw & _).
  fold g2 in Hf, Hw.
  split; [rewrite Hf; reflexivity | rewrite Hw; reflexivity].
Defined.

(* ===================================================================== *)
(** ** The tray, leaving the application, the downloads folder *)
(* ===================================================================== *)

(** X16.  [SystemTray.stop] stops the icon at most once: it does
    nothing on a tray that was never run or is already stopped, so a
    second stop changes nothing; after [run] and [stop] the icon was
    run once and stopped once, and the status bar will say that the
    tray is down. *)
Theorem tray_stop_once (d : Desktop) :
  tray_stop (tray_stop d) = tray_stop d
  /\ (forall t, d_tray d = Some t ->
        icon t = false \/ tray_running t = false -> tray_stop d = d)
  /\ (forall t, d_tray d = Some t ->
        let d' := tray_stop (tray_run d) in
        d_calls d' = d_calls d ++ [DcIconRun; DcIconStop]
        /\ d_tray d' = Some {| icon := true; tray_running := false |}
        /\ system_tray (d_app d') = Some false
        /\ system_tray (d_app (tray_run d)) = Some true).
Proof.
  split; [|split].
  - unfold tray_stop. destruct (d_tray d) as [[i r]|] eqn:E.
    + cbn [icon tray_running]. destruct i, r; cbn [andb]; rewrite ?E;
        cbn [d_tray with_tray icon tray_running andb]; reflexivity.
    + rewrite E. reflexivity.
  - intros [i r] E Hoff. unfold tray_stop. rewrite E.
    cbn [icon tray_running] in *.
    destruct Hoff as [-> | ->]; [reflexivity | apply andb_false_r
      || (rewrite andb_false_r; reflexivity)].
  - intros t E d'. subst d'. unfold tray_run, tray_stop. rewrite E.
    cbn [d_tray d_calls d_app with_tray icon tray_running andb
         system_tray set_system_tray].
    rewrite <- app_assoc. repeat split.
Qed.

Lemma tray_stop_once_witness :
  tray_stop desk_init = desk_init
  /\ d_calls (tray_stop (tray_stop (tray_run desk_init)))
     = [DcIconRun; DcIconStop].
Proof.
  destruct (tray_stop_once desk_init) as (_ & Hoff & _).
  destruct (tray_stop_once (tray_run desk_init)) as (Hidem & _).
  split.
  - apply (Hoff {| icon := false; tray_running := false |} eq_refl).
    left. reflexivity.
  - rewrite Hidem. reflexivity.
Defined.

(** X17.  [quit_application]: without an active process it leaves at
    once, asking nothing.  With one it asks first; on "cancel" nothing
    else happens and the application goes on; on "ok" it runs
    [stop_recording] and then leaves whatever came of the stop, so
    that after a failed stop the application has exited with the
    process still set.  Leaving is: stop the tray icon if it is
    running, [root.quit()], [root.destroy()], [sys.exit(0)]. *)
Theorem quit_application_cases (env : Env) (answer : bool) (d : Desktop) :
  let d' := quit_application env answer d in
  let ask := DcAskOkCancel (lit "退出确认")
               (lit "录制正在后台进行，确定要退出吗？") answer in
  let stops :=
    match d_tray d with
    | Some t => if icon t && tray_running t then [DcIconStop] else []
    | None => []
    end in
  (process (d_app d) = None ->
     calls_since d d' = stops ++ [DcRootQuit; DcRootDestroy; DcSysExit 0]
     /\ d_exited d' = true
     /\ trace (d_app d') = trace (d_app d))
  /\ (forall p, process (d_app d) = Some p -> answer = false ->
        calls_since d d' = [ask]
        /\ d_exited d' = d_exited d
        /\ d_app d' = d_app d /\ d_tray d' = d_tray d)
  /\ (forall p, process (d_app d) = Some p -> answer = true ->
        calls_since d d'
        = ask :: stops ++ [DcRootQuit; DcRootDestroy; DcSysExit 0]
        /\ d_exited d' = true
        /\ trace (d_app d') = trace (exec (stop_recording env) (d_app d))
        /\ process (d_app d')
           = process (exec (stop_recording env) (d_app d))
        /\ count_events is_terminate
             (events_since (d_app d) (d_app d')) = 1).
Proof.
  intros d' ask stops. subst d' ask stops.
  unfold quit_application, calls_since. split; [|split].
  - intros Hp. rewrite Hp. unfold leave, tray_stop.
    destruct (d_tray d) as [[i r]|] eqn:E; cbn [icon tray_running].
    + destruct (i && r) eqn:Eir;
        cbn [d_calls d_exited d_app d_tray with_tray trace set_system_tray];
        rewrite <- ?app_assoc, skipn_length_app; repeat split.
    + cbn [d_calls d_exited d_app d_tray].
      rewrite skipn_length_app. repeat split.
  - intros p Hp ->. rewrite Hp.
    cbn [d_calls d_exited d_app d_tray with_calls].
    rewrite skipn_length_app. repeat split.
  - intros p Hp ->. rewrite Hp. unfold leave, tray_stop.
    cbn [d_calls d_exited d_app d_tray with_calls].
    pose proof (@stop_recording_outcomes env (d_app d) p Hp)
      as (Hterm & _).
    destruct (d_tray d) as [[i r]|] eqn:E; cbn [icon tray_running].
    + destruct (i && r) eqn:Eir;
        cbn [d_calls d_exited d_app d_tray with_tray trace process
             set_system_tray];
        rewrite <- ?app_assoc, skipn_length_app; repeat split;
        exact Hterm.
    + cbn [d_calls d_exited d_app d_tray].
      rewrite <- ?app_assoc, skipn_length_app. repeat split. exact Hterm.
Qed.

Lemma quit_application_cases_witness :
  let d := {| d_app := Sample.started env_terminate_fails;
              d_tray := Some {| icon := true; tray_running := true |};
              d_calls := []; d_exited := false |} in
  let d' := quit_application env_terminate_fails true d in
  process (d_app d) = Some first_child
  /\ d_exited d' = true
  /\ process (d_app d') = Some first_child.
Proof.
  intros d d'.
  assert (Hp : process (d_app d) = Some first_child)
    by (vm_compute; reflexivity).
  destruct (@quit_application_cases env_terminate_fails true d)
    as (_ & _ & Hok).
  destruct (Hok first_child Hp eq_refl) as (_ & Hx & _ & Hproc & _).
  split; [exact Hp|]. split; [exact Hx|].
  fold d' in Hproc. rewrite Hproc. vm_compute. reflexivity.
Defined.

(** X18.  [open_downloads_folder] starts exactly one launcher, chosen
    by the platform: [os.startfile] on win32, [open] on darwin,
    [xdg-open] elsewhere, each on the downloads folder, which is
    created first exactly when it does not exist.  What the launcher
    answers decides the one line logged: a normal line when it
    returns, an error line when it raises.  The supervised process is
    not touched. *)
Theorem open_downloads_folder_spec (env : Env) (res : option Exn)
    (d : Desktop) :
  let d' := open_downloads_folder env res d in
  let evs := events_since (d_app d) (d_app d') in
  let path := downloads_dir env in
  length (filter is_dc_launch (calls_since d d')) = 1
  /\ (sys_platform env = lit "win32" ->
      In (DcStartfile path res) (calls_since d d'))
  /\ (sys_platform env = lit "darwin" ->
      In (DcPopen [lit "open"; path] res) (calls_since d d'))
  /\ (sys_platform env <> lit "win32" -> sys_platform env <> lit "darwin" ->
      In (DcPopen [lit "xdg-open"; path] res) (calls_since d d'))
  /\ (In (DcMakedirs path) (calls_since d d')
      <-> os_path_exists env path = false)
  /\ count_events is_log_insert evs = 1
  /\ count_events is_error_line evs
     = match res with None => 0 | Some _ => 1 end
  /\ process (d_app d') = process (d_app d)
  /\ process_pid (d_app d') = process_pid (d_app d)
  /\ running (d_app d') = running (d_app d)
  /\ d_exited d' = d_exited d.
Proof.
  intros d' evs path. subst d' evs path.
  unfold open_downloads_folder, calls_since.
  cbn [d_calls d_app d_exited]. rewrite skipn_length_app.
  assert (Hmk : forall c,
            In (DcMakedirs (downloads_dir env))
               ((if negb (os_path_exists env (downloads_dir env))
                 then [DcMakedirs (downloads_dir env)] else []) ++ [c])
            <-> (os_path_exists env (downloads_dir env) = false
                 \/ c = DcMakedirs (downloads_dir env))).
  { intros c. destruct (os_path_exists env (downloads_dir env));
      cbn; intuition congruence. }
  assert (Hlaunch : forall c,
            length (filter is_dc_launch
              ((if negb (os_path_exists env (downloads_dir env))
                then [DcMakedirs (downloads_dir env)] else []) ++ [c]))
            = if is_dc_launch c then 1 else 0).
  { intros c. destruct (os_path_exists env (downloads_dir env));
      cbn; destruct (is_dc_launch c); reflexivity. }
  rewrite Hlaunch.
  split.
  { destruct (pystr_eqb (sys_platform env) (lit "win32"));
      [|destruct (pystr_eqb (sys_platform env) (lit "darwin"))];
      reflexivity. }
  split.
  { intros Hw. rewrite Hw. apply in_or_app. right. left. reflexivity. }
  split.
  { intros Hm. rewrite Hm. apply in_or_app. right. left. reflexivity. }
  split.
  { intros Hw Hm.
    destruct (pystr_eqb (sys_platform env) (lit "win32")) eqn:Ew;
      [apply pystr_eqb_eq in Ew; contradiction|].
    destruct (pystr_eqb (sys_platform env) (lit "darwin")) eqn:Em;
      [apply pystr_eqb_eq in Em; contradiction|].
    apply in_or_app. right. left. reflexivity. }
  split.
  { rewrite Hmk. split; [|tauto]. intros [H|H]; [exact H|].
    destruct (pystr_eqb (sys_platform env) (lit "win32"));
      [|destruct (pystr_eqb (sys_platform env) (lit "darwin"))];
      discriminate H. }
  destruct res as [e|]; run_method; new_events; unfold count_events;
    cbn [filter is_log_insert is_error_line];
    rewrite ?tag_error_is_error, ?tag_normal_is_not_error; repeat split.
Qed.

Lemma open_downloads_folder_witness :
  In (DcPopen [lit "open"; downloads_dir mac_without_downloads] None)
     (calls_since desk_init
        (open_downloads_folder mac_without_downloads None desk_init)).
Proof.
  destruct (@open_downloads_folder_spec mac_without_downloads None desk_init)
    as (_ & _ & Hmac & _).
  apply Hmac. reflexivity.
Defined.
